(** * Reversible filesystem scenarios of [scripts/incremental_build/cuj_catalog.py]

    A shallow embedding of the mutation recipes ([modify_revert],
    [regex_modify_revert], [create_delete], [delete_restore], the build-file
    variants) and of the catalog assembly ([get_cujgroups]), together with
    the properties of the recipes that the specification states.

    Conventions of the model:
    - a [pathlib.Path] is the list of its components, innermost first, so
      that [p.parent] is the tail and [p.name] the head of the list; the
      empty list is the filesystem root;
    - a filesystem is a finite map from paths to nodes (regular files with
      their bytes, or directories); symbolic links and permissions are not
      modelled; which mounted filesystem holds a path is given with the
      environment, and [rename] does not cross from one to another;
    - a Python [str] is the list of its Unicode code points; text files are
      UTF-8, written without newline translation (POSIX) and read with
      universal newlines;
    - a step's [apply_change] is a function from the world (filesystem and
      the closure cells of the recipes) to an outcome that is either a
      normal return or a raised exception, both with the world they leave. *)

From Stdlib Require Import ZArith NArith String Ascii List Lia DecimalString.
From stdpp Require Import base gmap list strings.
Import ListNotations.

Local Open Scope string_scope.
Local Open Scope list_scope.

(** ** Paths *)

Abbreviation path := (list string).

Definition root : path := [].

(** [split_slash s acc] cuts [s] at every slash; [acc] is the component
    read so far. *)
Fixpoint split_slash (s acc : string) : list string :=
  match s with
  | EmptyString => [acc]
  | String c s' =>
      if Ascii.eqb c "/"%char then acc :: split_slash s' ""
      else split_slash s' (acc +:+ String c "")
  end.

(** The components pathlib keeps: empty components and single dots are
    dropped. *)
Definition parts (s : string) : list string :=
  filter (fun c => c <> "" /\ c <> ".") (split_slash s "").

Definition is_absolute (s : string) : bool :=
  match s with
  | String c _ => Ascii.eqb c "/"%char
  | EmptyString => false
  end.

(** [p.joinpath(s)]: an absolute [s] replaces [p]. *)
Definition joinpath (p : path) (s : string) : path :=
  if is_absolute s then rev (parts s) else rev (parts s) ++ p.

(** [p.name], the empty string for the root. *)
Definition name (p : path) : string :=
  match p with
  | [] => ""
  | n :: _ => n
  end.

(** [p.parent]; the root is its own parent. *)
Definition parent (p : path) : path := tail p.

(** [p.parents]: the proper ancestors, the immediate parent first and the
    root last. *)
Fixpoint parents (p : path) : list path :=
  match p with
  | [] => []
  | _ :: q => q :: parents q
  end.

(** [p.is_relative_to(q)]: [q] is [p] or one of its ancestors. *)
Definition is_relative_to (p q : path) : bool := bool_decide (q `suffix_of` p).

(** [str(p)] for an absolute path. *)
Definition str_path (p : path) : string :=
  match p with
  | [] => "/"
  | _ => fold_left (fun acc c => acc +:+ "/" +:+ c) (rev p) ""
  end.

(** ** Text and bytes *)

(** A [str] is a list of code points; a file holds bytes. *)
Abbreviation text := (list N).
Abbreviation bytes := (list Byte.byte).

Definition byte_of_N (n : N) : Byte.byte :=
  match Byte.of_N n with
  | Some b => b
  | None => Byte.x00
  end.

(** The code points of an ASCII literal. *)
Definition text_of_string (s : string) : text :=
  map N_of_ascii (list_ascii_of_string s).

(** UTF-8 encoding of one code point; surrogates and values beyond U+10FFFF
    cannot be encoded. *)
Definition utf8_encode_char (c : N) : option bytes :=
  if (c <? 128)%N then Some [byte_of_N c]
  else if (c <? 2048)%N then
    Some [byte_of_N (N.lor 192 (N.shiftr c 6));
          byte_of_N (N.lor 128 (N.land c 63))]
  else if (c <? 65536)%N then
    if ((55296 <=? c) && (c <=? 57343))%N then None
    else
      Some [byte_of_N (N.lor 224 (N.shiftr c 12));
            byte_of_N (N.lor 128 (N.land (N.shiftr c 6) 63));
            byte_of_N (N.lor 128 (N.land c 63))]
  else if (c <? 1114112)%N then
    Some [byte_of_N (N.lor 240 (N.shiftr c 18));
          byte_of_N (N.lor 128 (N.land (N.shiftr c 12) 63));
          byte_of_N (N.lor 128 (N.land (N.shiftr c 6) 63));
          byte_of_N (N.lor 128 (N.land c 63))]
  else None.

Fixpoint utf8_encode (t : text) : option bytes :=
  match t with
  | [] => Some []
  | c :: t' =>
      match utf8_encode_char c, utf8_encode t' with
      | Some b, Some bs => Some (b ++ bs)
      | _, _ => None
      end
  end.

(** Every character of [t] takes one byte in UTF-8. *)
Definition one_byte_per_char (t : text) : Prop := Forall (fun c => (c < 128)%N) t.

(** UTF-8 decoding as Python's strict decoder does it: overlong forms,
    surrogates and values beyond U+10FFFF are rejected. *)
Definition continuation (b : Byte.byte) : option N :=
  let n := Byte.to_N b in
  if ((128 <=? n) && (n <? 192))%N then Some (n - 128)%N else None.

Fixpoint utf8_decode (bs : bytes) : option text :=
  match bs with
  | [] => Some []
  | b0 :: r0 =>
      let n0 := Byte.to_N b0 in
      if (n0 <? 128)%N then cons n0 <$> utf8_decode r0
      else if (n0 <? 192)%N then None
      else
        match r0 with
        | [] => None
        | b1 :: r1 =>
            match continuation b1 with
            | None => None
            | Some n1 =>
                if (n0 <? 224)%N then
                  let c := ((n0 - 192) * 64 + n1)%N in
                  if (c <? 128)%N then None else cons c <$> utf8_decode r1
                else
                  match r1 with
                  | [] => None
                  | b2 :: r2 =>
                      match continuation b2 with
                      | None => None
                      | Some n2 =>
                          if (n0 <? 240)%N then
                            let c := ((n0 - 224) * 4096 + n1 * 64 + n2)%N in
                            if ((c <? 2048) || ((55296 <=? c) && (c <=? 57343)))%N
                            then None
                            else cons c <$> utf8_decode r2
                          else
                            match r2 with
                            | [] => None
                            | b3 :: r3 =>
                                match continuation b3 with
                                | None => None
                                | Some n3 =>
                                    let c := ((n0 - 240) * 262144 + n1 * 4096
                                              + n2 * 64 + n3)%N in
                                    if ((c <? 65536) || (1114112 <=? c))%N
                                    then None
                                    else cons c <$> utf8_decode r3
                                end
                            end
                      end
                  end
            end
        end
  end.

(** Reading in text mode translates CR LF and a lone CR to LF. *)
Fixpoint universal_newlines (t : text) : text :=
  match t with
  | [] => []
  | c :: t' =>
      if (c =? 13)%N then
        match t' with
        | d :: t'' =>
            if (d =? 10)%N then 10%N :: universal_newlines t''
            else 10%N :: universal_newlines t'
        | [] => [10%N]
        end
      else c :: universal_newlines t'
  end.

(** ** Exceptions and results *)

Inductive exn : Type :=
| RuntimeError (msg : string)
| SystemExit (msg : string)
| AssertionError (msg : string)
| ValueError (msg : string)
| NameError (var : string)
| FileNotFoundError (p : path)
| FileExistsError (p : path)
| IsADirectoryError (p : path)
| NotADirectoryError (p : path)
| OSError (p : path)
| UnicodeEncodeError
| UnicodeDecodeError.

Inductive result (A : Type) : Type :=
| OK (a : A)
| Err (e : exn).

Arguments OK {A} a.
Arguments Err {A} e.

(** ** The filesystem *)

Inductive node : Type :=
| File (content : bytes)
| Dir.

Abbreviation filesystem := (gmap path node).

(** [p.exists()] *)
Definition path_exists (fs : filesystem) (p : path) : bool :=
  bool_decide (is_Some (fs !! p)).

(** [p.is_dir()] *)
Definition is_dir (fs : filesystem) (p : path) : bool :=
  match fs !! p with
  | Some Dir => true
  | _ => false
  end.

(** A tree-shaped filesystem: the root is a directory and every entry lies
    in a directory. *)
Definition wf_fs (fs : filesystem) : Prop :=
  fs !! root = Some Dir /\
  forall n p, is_Some (fs !! (n :: p)) -> fs !! p = Some Dir.

Inductive errno : Type := ENOENT | ENOTDIR.

Definition os_error (e : errno) (p : path) : exn :=
  match e with
  | ENOENT => FileNotFoundError p
  | ENOTDIR => NotADirectoryError p
  end.

(** Resolving [q] as the directory that is to hold an entry. *)
Fixpoint dir_error (fs : filesystem) (q : path) : option errno :=
  match fs !! q with
  | Some Dir => None
  | Some (File _) => Some ENOTDIR
  | None =>
      match q with
      | [] => Some ENOENT
      | _ :: q' =>
          match dir_error fs q' with
          | None => Some ENOENT
          | Some e => Some e
          end
      end
  end.

(** The error, if any, of creating or opening an entry at [p]. *)
Definition parent_error (fs : filesystem) (p : path) : option exn :=
  match p with
  | [] => None
  | _ :: q =>
      match dir_error fs q with
      | None => None
      | Some e => Some (os_error e p)
      end
  end.

(** The error of reaching an entry that [p] does not name: ENOTDIR when a
    regular file stands where a directory of [p] is expected, ENOENT
    otherwise. *)
Definition absent_error (fs : filesystem) (p : path) : exn :=
  match parent_error fs p with
  | Some e => e
  | None => FileNotFoundError p
  end.

(** [os.mkdir(p)] *)
Definition os_mkdir (p : path) (fs : filesystem) : result filesystem :=
  match fs !! p with
  | Some _ => Err (FileExistsError p)
  | None =>
      match p with
      | [] => Err (FileExistsError p)
      | _ :: _ =>
          match parent_error fs p with
          | Some e => Err e
          | None => OK (<[p := Dir]> fs)
          end
      end
  end.

(** [p.mkdir(parents=False, exist_ok=True)] *)
Definition mkdir_exist_ok (p : path) (fs : filesystem) : result filesystem :=
  match os_mkdir p fs with
  | OK fs' => OK fs'
  | Err (FileNotFoundError q) => Err (FileNotFoundError q)
  | Err e => if is_dir fs p then OK fs else Err e
  end.

(** [p.mkdir(parents=True, exist_ok=True)], after pathlib: the missing
    parents are made first, the nearest one last. *)
Fixpoint mkdir_parents (p : path) (fs : filesystem) : result filesystem :=
  match os_mkdir p fs with
  | OK fs' => OK fs'
  | Err (FileNotFoundError q) =>
      match p with
      | [] => Err (FileNotFoundError q)
      | _ :: p' =>
          match mkdir_parents p' fs with
          | OK fs' => mkdir_exist_ok p fs'
          | Err e => Err e
          end
      end
  | Err e => if is_dir fs p then OK fs else Err e
  end.

(** [p.touch(exist_ok=False)] *)
Definition touch (p : path) (fs : filesystem) : result filesystem :=
  match fs !! p with
  | Some _ => Err (FileExistsError p)
  | None =>
      match parent_error fs p with
      | Some e => Err e
      | None => OK (<[p := File []]> fs)
      end
  end.

(** [open(p, mode="w")]: the file is created or emptied. *)
Definition open_w (p : path) (fs : filesystem) : result filesystem :=
  match fs !! p with
  | Some Dir => Err (IsADirectoryError p)
  | Some (File _) => OK (<[p := File []]> fs)
  | None =>
      match parent_error fs p with
      | Some e => Err e
      | None => OK (<[p := File []]> fs)
      end
  end.

(** [open(p, mode="a")]: the file is created when it is missing. *)
Definition open_a (p : path) (fs : filesystem) : result filesystem :=
  match fs !! p with
  | Some Dir => Err (IsADirectoryError p)
  | Some (File _) => OK fs
  | None =>
      match parent_error fs p with
      | Some e => Err e
      | None => OK (<[p := File []]> fs)
      end
  end.

(** [f.write(t)] on a file opened for writing at its end. *)
Definition write_end (p : path) (t : text) (fs : filesystem) : result filesystem :=
  match utf8_encode t with
  | None => Err UnicodeEncodeError
  | Some b =>
      match fs !! p with
      | Some (File c) => OK (<[p := File (c ++ b)]> fs)
      | Some Dir => Err (IsADirectoryError p)
      | None => Err (FileNotFoundError p)
      end
  end.

(** [open(p, mode="rb+")], [f.seek(-n, io.SEEK_END)], [f.truncate()]:
    seeking before the start of the file is an error. *)
Definition seek_end_truncate (p : path) (n : nat) (fs : filesystem)
  : result filesystem :=
  match fs !! p with
  | Some (File c) =>
      if bool_decide (n <= length c)
      then OK (<[p := File (take (length c - n) c)]> fs)
      else Err (OSError p)
  | Some Dir => Err (IsADirectoryError p)
  | None => Err (absent_error fs p)
  end.

(** [p.read_text()] *)
Definition read_text (p : path) (fs : filesystem) : result text :=
  match fs !! p with
  | Some (File c) =>
      match utf8_decode c with
      | Some t => OK (universal_newlines t)
      | None => Err UnicodeDecodeError
      end
  | Some Dir => Err (IsADirectoryError p)
  | None => Err (absent_error fs p)
  end.

(** [p.unlink(missing_ok=False)] *)
Definition unlink (p : path) (fs : filesystem) : result filesystem :=
  match fs !! p with
  | Some (File _) => OK (delete p fs)
  | Some Dir => Err (IsADirectoryError p)
  | None => Err (absent_error fs p)
  end.

(** [shutil.rmtree(d)]: [d] and everything below it goes. *)
Definition rmtree (d : path) (fs : filesystem) : result filesystem :=
  match fs !! d with
  | Some Dir => OK (filter (fun kv => ~ (d `suffix_of` kv.1)) fs)
  | Some (File _) => Err (NotADirectoryError d)
  | None => Err (absent_error fs d)
  end.

(** [src.rename(dst)], which is [os.rename]: both directories are resolved
    first; an entry does not move from one mounted filesystem to another
    (EXDEV, [device] naming the mounted filesystem of a path); a regular file
    replaces a regular file at [dst]; a directory moves with everything below
    it, onto nothing or onto an empty directory. *)
Definition rename (device : path -> N) (from to : path) (fs : filesystem)
  : result filesystem :=
  match parent_error fs from with
  | Some e => Err e
  | None =>
  match parent_error fs to with
  | Some e => Err e
  | None =>
  if negb (device from =? device to)%N then Err (OSError to)
  else
  match fs !! from with
  | None => Err (FileNotFoundError from)
  | Some (File c) =>
      match fs !! to with
      | Some Dir => Err (IsADirectoryError to)
      | _ => OK (<[to := File c]> (delete from fs))
      end
  | Some Dir =>
      let below (d : path) := filter (fun kv => d `suffix_of` kv.1) fs in
      let rebase (kv : path * node) :=
        (take (length kv.1 - length from) kv.1 ++ to, kv.2) in
      match fs !! to with
      | Some (File _) => Err (NotADirectoryError to)
      | _ =>
          if bool_decide (from = to) then OK fs
          else if bool_decide (from `suffix_of` to) then Err (OSError to)
          else if bool_decide (size (below to) <= 1) then
            OK (list_to_map (rebase <$> map_to_list (below from))
                ∪ filter (fun kv => ~ (from `suffix_of` kv.1)) fs)
          else Err (OSError to)
      end
  end
  end
  end.

(** ** Worlds, steps and groups *)

(** The filesystem and the cells that hold the variables captured by the
    closures of the recipes ([original_text] of [regex_modify_revert]). *)
Record world : Type := World {
  files : filesystem;
  cells : gmap nat text
}.

Inductive outcome : Type :=
| Done (w : world)
| Raised (e : exn) (w : world).

(** A zero-argument action: [apply_change]. *)
Definition change : Type := world -> outcome.

Definition on_files (op : filesystem -> result filesystem) : change :=
  fun w =>
    match op (files w) with
    | OK fs => Done (World fs (cells w))
    | Err e => Raised e w
    end.

Definition and_then (a b : change) : change :=
  fun w =>
    match a w with
    | Done w' => b w'
    | Raised e w' => Raised e w'
    end.

Infix ">>" := and_then (at level 61, left associativity).

Inductive InWorkspace : Type :=
| SYMLINK
| NOT_UNDER_SYMLINK
| UNDER_SYMLINK
| OMISSION.

(** [util.BuildType]: only [SOONG_ONLY] is named by the catalog. *)
Inductive BuildType : Type :=
| SOONG_ONLY
| OtherBuildType (label : string).

(** The verification attached to a step.  The catalog only composes
    verifications; the workspace checks, [cuj.sequence] and [cuj.skip_for]
    belong to the [cuj] module, so a verification is kept as the term the
    catalog builds. *)
Inductive Verifier : Type :=
| NoVerify
| WsVerifier (ws : InWorkspace) (p : path)
| Contains (ws_build_file : path) (content : text)
| DoesNotContain (ws_build_file : path) (content : text)
| SkipFor (b : BuildType) (v : Verifier)
| Sequence (v1 v2 : Verifier).

Record CujStep : Type := Step {
  verb : string;
  apply_change : change;
  verify : Verifier
}.

Record CujGroup : Type := Group {
  description : string;
  steps : list CujStep
}.

(** Applying steps in order; the first exception stops the run. *)
Fixpoint run_steps (l : list CujStep) : change :=
  match l with
  | [] => Done
  | s :: l' => apply_change s >> run_steps l'
  end.

(** ** Randomness *)

(** The source of [uuid.uuid4()] and [random.randint]: two sequences of
    draws and the number of draws made so far. *)
Record rng : Type := Rng {
  uuid_at : nat -> N;
  int_at : nat -> Z;
  drawn : nat
}.

Definition uuid4 (r : rng) : N * rng :=
  ((uuid_at r (drawn r) mod 2 ^ 128)%N, Rng (uuid_at r) (int_at r) (S (drawn r))).

(** [random.randint(lo, hi)], both ends included. *)
Definition randint (lo hi : Z) (r : rng) : Z * rng :=
  ((lo + int_at r (drawn r) mod (hi - lo + 1))%Z,
   Rng (uuid_at r) (int_at r) (S (drawn r))).

Definition hex_digit (d : N) : ascii :=
  if (d <? 10)%N then ascii_of_N (48 + d) else ascii_of_N (87 + d).

(** The [k] low hexadecimal digits of [n], most significant first. *)
Fixpoint hex_digits (k : nat) (n : N) (acc : list ascii) : list ascii :=
  match k with
  | O => acc
  | S k' => hex_digits k' (n / 16)%N (hex_digit (n mod 16)%N :: acc)
  end.

(** [str(u)] for a UUID: 8-4-4-4-12 hexadecimal digits. *)
Definition uuid_chars (u : N) : list ascii :=
  let h := hex_digits 32 u [] in
  take 8 h ++ ["-"%char] ++ take 4 (drop 8 h) ++ ["-"%char]
  ++ take 4 (drop 12 h) ++ ["-"%char] ++ take 4 (drop 16 h) ++ ["-"%char]
  ++ drop 20 h.

Definition uuid_str (u : N) : string := string_of_list_ascii (uuid_chars u).
Definition uuid_text (u : N) : text := N_of_ascii <$> uuid_chars u.

(** [str(n)] for an integer. *)
Definition str_int (n : Z) : string :=
  NilZero.string_of_int (Z.to_int n).

Definition newline : string := String (ascii_of_nat 10) "".
Definition dquote : string := String (ascii_of_nat 34) "".
Definition backslash : string := String (ascii_of_nat 92) "".

Definition string_of_text (t : text) : string :=
  string_of_list_ascii (ascii_of_N <$> t).

(** ** Construction of groups *)

(** What a recipe threads while it builds a group: the random source and
    the next free closure cell. *)
Record cstate : Type := CState {
  rand : rng;
  next_cell : nat
}.

Definition build (A : Type) : Type := cstate -> result (A * cstate).

Definition ret {A} (a : A) : build A := fun st => OK (a, st).

Definition bind {A B} (m : build A) (f : A -> build B) : build B :=
  fun st =>
    match m st with
    | OK (a, st') => f a st'
    | Err e => Err e
    end.

Definition raise {A} (e : exn) : build A := fun _ => Err e.

Notation "x <- m ;; k" := (bind m (fun x => k))
  (at level 100, m at next level, right associativity).
Notation "m ;;; k" := (bind m (fun _ => k))
  (at level 100, right associativity).

Definition draw_uuid : build N :=
  fun st => let (u, r) := uuid4 (rand st) in OK (u, CState r (next_cell st)).

Definition draw_int (lo hi : Z) : build Z :=
  fun st => let (n, r) := randint lo hi (rand st) in OK (n, CState r (next_cell st)).

(** A new cell for a variable that closures share. *)
Definition new_cell : build nat :=
  fun st => OK (next_cell st, CState (rand st) (S (next_cell st))).

Fixpoint map_build {A B} (f : A -> build B) (l : list A) : build (list B) :=
  match l with
  | [] => ret []
  | a :: l' => b <- f a ;; bs <- map_build f l' ;; ret (b :: bs)
  end.

(** ** Collaborators *)

(** A predicate of [clone] over the type and the name of a module. *)
Definition selector : Type := string -> string -> bool.

(** What the catalog takes from the modules [cuj], [util], [ui], [finder],
    [clone], [tempfile] and [re], and from the machine: path resolution, the
    configured directories, the mounted filesystem that holds a path
    ([st_dev]), the structural confirmation ([None] when every pattern
    holds, the exception it raises otherwise), the first-match substitution
    [re.sub(pattern, replacement, text, count=1, flags=re.MULTILINE)] and
    the bulk generation of groups. *)
Record env : Type := Env {
  src : string -> path;
  de_src : path -> string;
  ws_counterpart : path -> path;
  top_dir : path;
  out_dir : path;
  log_dir : path;
  tempdir : path;
  device : path -> N;
  confirm : filesystem -> path -> list string -> option exn;
  re_sub : string -> string -> text -> result text;
  type_in : string -> selector;
  name_in : string -> selector;
  get_cuj_group : filesystem -> list (path * selector) -> string -> build CujGroup
}.

(** [p.with_name(n)] *)
Definition with_name (p : path) (n : string) : result path :=
  match p with
  | [] => Err (ValueError "path has an empty name")
  | _ :: q => OK (n :: q)
  end.

(** ** Recipes *)

Definition Warmup : CujGroup :=
  Group "WARMUP" [Step "no change" Done NoVerify].

Definition bogus_marker (u : N) : text :=
  text_of_string "//BOGUS " ++ uuid_text u ++ text_of_string newline.

Definition test_file_marker (u : N) : text :=
  text_of_string "//Test File: safe to delete " ++ uuid_text u
  ++ text_of_string newline.

Section Recipes.

Variable E : env.
(** The filesystem at the time the groups are built. *)
Variable fs : filesystem.

Definition modify_revert (file : path) (text_ : option text) : build CujGroup :=
  t <- match text_ with
       | None => u <- draw_uuid ;; ret (bogus_marker u)
       | Some t => ret t
       end ;;
  if negb (path_exists fs file)
  then raise (RuntimeError (str_path file +:+ " does not exist"))
  else
    let add_line : change :=
      on_files (open_a file) >> on_files (write_end file t) in
    let revert : change :=
      on_files (seek_end_truncate file (length t)) in
    ret (Group (de_src E file)
           [Step "modify" add_line NoVerify; Step "revert" revert NoVerify]).

(** [p.write_text(t)] *)
Definition write_text (p : path) (t : text) : change :=
  on_files (open_w p) >> on_files (write_end p t).

Definition regex_modify_revert (file : path) (pattern replacement : string)
    (modify_type : string) : build CujGroup :=
  if negb (path_exists fs file)
  then raise (RuntimeError (str_path file +:+ " does not exist"))
  else
    original_text <- new_cell ;;
    let modify : change := fun w =>
      match read_text file (files w) with
      | Err e => Raised e w
      | OK t =>
          let w1 := World (files w) (<[original_text := t]> (cells w)) in
          match re_sub E pattern replacement t with
          | Err e => Raised e w1
          | OK modified_text => write_text file modified_text w1
          end
      end in
    let revert : change := fun w =>
      match cells w !! original_text with
      | None => Raised (NameError "original_text") w
      | Some t => write_text file t w
      end in
    ret (Group (de_src E file)
           [Step modify_type modify NoVerify; Step "revert" revert NoVerify]).

Definition modify_private_method (file : path) : build CujGroup :=
  n <- draw_int 0 1000 ;;
  let pattern := "(private static boolean.*{)" in
  let replacement :=
    backslash +:+ "1 Log.d(" +:+ dquote +:+ "Placeholder" +:+ dquote +:+ ", "
    +:+ dquote +:+ "Placeholder" +:+ str_int n +:+ dquote +:+ ");" in
  let modify_type := "modify_private_method" in
  regex_modify_revert file pattern replacement modify_type.

Definition add_private_field (file : path) : build CujGroup :=
  n <- draw_int 0 1000 ;;
  let pattern := "^" +:+ backslash +:+ "}$" in
  let replacement :=
    "private static final int FOO = " +:+ str_int n +:+ ";" +:+ newline +:+ "}" in
  let modify_type := "add_private_field" in
  regex_modify_revert file pattern replacement modify_type.

Definition add_public_api (file : path) : build CujGroup :=
  n <- draw_int 0 1000 ;;
  let pattern := backslash +:+ "}$" in
  let replacement :=
    "public static final int BAZ = " +:+ str_int n +:+ ";" +:+ newline +:+ "}" in
  let modify_type := "add_public_api" in
  regex_modify_revert file pattern replacement modify_type.

Definition modify_resource (file : path) : build CujGroup :=
  n <- draw_int 0 1000 ;;
  let pattern := ">0<" in
  let replacement := ">" +:+ str_int n +:+ "<" in
  let modify_type := "modify_resource" in
  regex_modify_revert file pattern replacement modify_type.

Definition add_resource (file : path) : build CujGroup :=
  n <- draw_int 0 1000 ;;
  let pattern := "</resources>" in
  let replacement :=
    "    <integer name=" +:+ dquote +:+ "foo" +:+ dquote +:+ ">" +:+ str_int n
    +:+ "</integer>" +:+ backslash +:+ "n</resources>" in
  let modify_type := "add_resource" in
  regex_modify_revert file pattern replacement modify_type.

Definition create_delete (file : path) (ws : InWorkspace) (text_ : option text)
  : build CujGroup :=
  t <- match text_ with
       | None => u <- draw_uuid ;; ret (test_file_marker u)
       | Some t => ret t
       end ;;
  let missing_dirs := filter (fun f => ~ path_exists fs f) (parents file) in
  let shallowest_missing_dir := last missing_dirs in
  let create : change := fun w =>
    if path_exists (files w) file
    then Raised (RuntimeError
                   ("File " +:+ str_path file
                    +:+ " already exists. Interrupted an earlier run?" +:+ newline
                    +:+ "TIP: `repo status` and revert changes!!!")) w
    else (on_files (mkdir_parents (parent file)) >> on_files (touch file)
          >> on_files (open_w file) >> on_files (write_end file t)) w in
  let delete : change :=
    match shallowest_missing_dir with
    | Some d => on_files (rmtree d)
    | None => on_files (unlink file)
    end in
  ret (Group (de_src E file)
         [Step "create" create (WsVerifier ws file);
          Step "delete" delete (WsVerifier OMISSION file)]).

Definition create_delete_bp (bp_file : path) : build CujGroup :=
  create_delete bp_file SYMLINK
    (Some (text_of_string
             ("filegroup { name: " +:+ dquote +:+ "test-bogus-filegroup" +:+ dquote
              +:+ ", srcs: [" +:+ dquote +:+ "**/*.md" +:+ dquote +:+ "] }"))).

Definition delete_restore (original : path) (ws : InWorkspace) : build CujGroup :=
  if is_relative_to (tempdir E) (top_dir E)
  then raise (SystemExit ("Temp dir " +:+ str_path (tempdir E)
                          +:+ " is under source tree"))
  else if is_relative_to (tempdir E) (out_dir E)
  then raise (SystemExit ("Temp dir " +:+ str_path (tempdir E) +:+ " is under "
                          +:+ "OUT dir " +:+ str_path (out_dir E)))
  else
    u <- draw_uuid ;;
    let copied :=
      joinpath (tempdir E) (name original +:+ "-" +:+ uuid_str u +:+ ".bak") in
    let move_to_tempdir_to_mimic_deletion : change :=
      on_files (rename (device E) original copied) in
    ret (Group (de_src E original)
           [Step "delete" move_to_tempdir_to_mimic_deletion
              (WsVerifier OMISSION original);
            Step "restore" (on_files (rename (device E) copied original))
              (WsVerifier ws original)]).

(** Unpacking [a, b, *tail = l] followed by [assert len(tail) == 0]. *)
Definition two_steps (l : list CujStep) : build (CujStep * CujStep) :=
  match l with
  | a :: b :: tail =>
      match tail with
      | [] => ret (a, b)
      | _ :: _ => raise (AssertionError "")
      end
  | _ => raise (ValueError "not enough values to unpack")
  end.

Definition replace_link_with_dir (p : path) : build CujGroup :=
  cd <- create_delete p SYMLINK None ;;
  cf <- two_steps (steps cd) ;;
  let create_file := cf.1 in
  let delete_file := cf.2 in
  bp <- create_delete_bp (joinpath p "Android.bp") ;;
  cdir <- two_steps (steps bp) ;;
  let create_dir := cdir.1 in
  let delete_dir := cdir.2 in
  let replace_it : change :=
    apply_change delete_file >> apply_change create_dir in
  ret (Group (description cd)
         [create_file;
          Step (de_src E p +:+ "/Android.bp instead of") replace_it
            (verify create_dir);
          delete_dir]).

(** The lines of a text file, each with its line end. *)
Fixpoint lines_from (t cur : text) : list text :=
  match t with
  | [] => match cur with [] => [] | _ :: _ => [cur] end
  | c :: t' =>
      if (c =? 10)%N then (cur ++ [c]) :: lines_from t' []
      else lines_from t' (cur ++ [c])
  end.

(** [search] of [content_verfiers], on the filesystem it is run in. *)
Definition search (now : filesystem) (ws_build_file : path) (content : text)
  : result bool :=
  match read_text ws_build_file now with
  | OK t => OK (existsb (fun line => bool_decide (line = content)) (lines_from t []))
  | Err e => Err e
  end.

(** The bodies of [contains] and [does_not_contain], which the catalog wraps
    in [cuj.skip_for(BuildType.SOONG_ONLY)]. *)
Definition contains (now : filesystem) (ws_build_file : path) (content : text)
  : result unit :=
  match search now ws_build_file content with
  | OK true => OK tt
  | OK false =>
      Err (AssertionError (de_src E ws_build_file +:+ " expected to contain "
                           +:+ string_of_text content))
  | Err e => Err e
  end.

Definition does_not_contain (now : filesystem) (ws_build_file : path)
    (content : text) : result unit :=
  match search now ws_build_file content with
  | OK false => OK tt
  | OK true =>
      Err (AssertionError (de_src E ws_build_file +:+ " not expected to contain "
                           +:+ string_of_text content))
  | Err e => Err e
  end.

Definition content_verfiers (ws_build_file : path) (content : text)
  : Verifier * Verifier :=
  (SkipFor SOONG_ONLY (Contains ws_build_file content),
   SkipFor SOONG_ONLY (DoesNotContain ws_build_file content)).

Definition lift {A} (r : result A) : build A :=
  match r with
  | OK a => ret a
  | Err e => raise e
  end.

Definition modify_revert_kept_build_file (build_file : path) : build CujGroup :=
  u <- draw_uuid ;;
  let content := bogus_marker u in
  g <- modify_revert build_file (Some content) ;;
  ss <- two_steps (steps g) ;;
  let step1 := ss.1 in
  let step2 := ss.2 in
  ws_build_file <- lift (with_name (ws_counterpart E build_file) "BUILD.bazel") ;;
  let mp := content_verfiers ws_build_file content in
  let merge_prover := mp.1 in
  let merge_disprover := mp.2 in
  ret (Group (de_src E build_file)
         [Step (verb step1) (apply_change step1)
            (Sequence (verify step1) merge_prover);
          Step (verb step2) (apply_change step2)
            (Sequence (verify step2) merge_disprover)]).

Definition create_delete_kept_build_file (build_file : path) : build CujGroup :=
  u <- draw_uuid ;;
  let content := bogus_marker u in
  ws_build_file <- lift (with_name (ws_counterpart E build_file) "BUILD.bazel") ;;
  ws <- (if String.eqb (name build_file) "BUILD.bazel" then ret NOT_UNDER_SYMLINK
         else if String.eqb (name build_file) "BUILD" then ret SYMLINK
         else raise (RuntimeError ("Illegal name for a build file "
                                   +:+ str_path build_file))) ;;
  let mp := content_verfiers ws_build_file content in
  let merge_prover := mp.1 in
  let merge_disprover := mp.2 in
  g <- create_delete build_file ws (Some content) ;;
  ss <- two_steps (steps g) ;;
  let step1 := ss.1 in
  let step2 := ss.2 in
  ret (Group (de_src E build_file)
         [Step (verb step1) (apply_change step1)
            (Sequence (verify step1) merge_prover);
          Step (verb step2) (apply_change step2)
            (Sequence (verify step2) merge_disprover)]).

Definition create_delete_unkept_build_file (build_file : path) : build CujGroup :=
  u <- draw_uuid ;;
  let content := bogus_marker u in
  ws_build_file <- lift (with_name (ws_counterpart E build_file) "BUILD.bazel") ;;
  g <- create_delete build_file SYMLINK (Some content) ;;
  ss <- two_steps (steps g) ;;
  let step1 := ss.1 in
  let step2 := ss.2 in
  let merge_disprover := (content_verfiers ws_build_file content).2 in
  ret (Group (de_src E build_file)
         [Step (verb step1) (apply_change step1)
            (Sequence (verify step1) merge_disprover);
          Step (verb step2) (apply_change step2)
            (Sequence (verify step2) merge_disprover)]).

(** ** Catalog assembly *)

(** [finder.confirm(root, *patterns)] *)
Definition confirmed (root_dir : path) (patterns : list string) : build unit :=
  match confirm E fs root_dir patterns with
  | Some e => raise e
  | None => ret tt
  end.

Definition kept_patterns : list string :=
  ["compliance/Android.bp"; "!compliance/BUILD"; "!compliance/BUILD.bazel";
   "rules/python/BUILD"].

Definition _kept_build_cujs : build (list CujGroup) :=
  let kept := src E "build/bazel" in
  confirmed kept kept_patterns ;;;
  a <- map_build
         (fun b => create_delete_kept_build_file
                     (joinpath (joinpath kept "compliance") b))
         ["BUILD"; "BUILD.bazel"] ;;
  c <- create_delete (joinpath kept "BUILD/kept-dir") SYMLINK None ;;
  m <- modify_revert_kept_build_file (joinpath kept "rules/python/BUILD") ;;
  ret (a ++ [c; m]).

Definition unkept_patterns : list string := ["Android.bp"; "!BUILD"; "!BUILD.bazel"].

Definition _unkept_build_cujs : build (list CujGroup) :=
  let unkept := src E "bionic/libm" in
  confirmed unkept unkept_patterns ;;;
  a <- map_build (fun b => create_delete_unkept_build_file (joinpath unkept b))
         ["BUILD"; "BUILD.bazel"] ;;
  b <- map_build (fun build_file => create_delete build_file OMISSION None)
         [joinpath unkept "bogus-unkept/BUILD";
          joinpath unkept "bogus-unkept/BUILD.bazel"] ;;
  c <- create_delete (joinpath unkept "BUILD/unkept-dir") SYMLINK None ;;
  ret (a ++ b ++ [c]).

Definition non_empty_dir : string := "*/*".

(** The [in] of two strings. *)
Definition occurs_in (needle hay : string) : bool :=
  match index 0 needle hay with
  | Some _ => true
  | None => false
  end.

Definition cc_ : selector :=
  fun t name_ =>
    String.prefix "cc_" t && negb (occurs_in "test" t)
    && negb (String.prefix "libcrypto" name_).

Definition libNN : selector :=
  fun t name_ =>
    String.eqb t "cc_library_shared" && String.eqb name_ "libneuralnetworks".

(** The [clean] step: the log directory must not lie in the source tree. *)
Definition clean : change :=
  fun w =>
    if is_relative_to (log_dir E) (top_dir E)
    then Raised (AssertionError ("specify a different LOG_DIR: "
                                 +:+ str_path (log_dir E))) w
    else if path_exists (files w) (out_dir E)
    then on_files (rmtree (out_dir E)) w
    else Done w.

Definition settings_java : string :=
  "frameworks/base/core/java/android/provider/Settings.java".
Definition ams_java : string :=
  "frameworks/base/services/core/java/com/android/server/am/ActivityManagerService.java".
Definition config_xml : string := "frameworks/base/core/res/res/values/config.xml".

Definition get_cujgroups : build (list CujGroup) :=
  let pkg := src E "art" in
  confirmed pkg [non_empty_dir; "Android.bp"; "!BUILD*"] ;;;
  let pkg_free := src E "bionic/docs" in
  confirmed pkg_free [non_empty_dir; "!**/Android.bp"; "!**/BUILD*"] ;;;
  let ancestor := src E "bionic" in
  confirmed ancestor ["**/Android.bp"; "!Android.bp"; "!BUILD*"] ;;;
  let leaf_pkg_free := src E "bionic/build" in
  confirmed leaf_pkg_free
    ["!" +:+ non_empty_dir; "!**/Android.bp"; "!**/BUILD*"] ;;;
  bp0 <- modify_revert (src E "Android.bp") None ;;
  bps <- map_build (fun d => create_delete_bp (joinpath d "Android.bp"))
           [ancestor; pkg_free; leaf_pkg_free] ;;
  let android_bp_cujs := bp0 :: bps in
  m1 <- map_build (fun f => modify_revert (src E f) None)
          ["bionic/libc/tzcode/asctime.c"; "bionic/libc/stdio/stdio.cpp";
           "packages/modules/adb/daemon/main.cpp";
           "frameworks/base/core/java/android/view/View.java"; settings_java] ;;
  m2 <- modify_private_method (src E settings_java) ;;
  m3 <- add_private_field (src E settings_java) ;;
  m4 <- add_public_api (src E settings_java) ;;
  m5 <- modify_private_method (src E ams_java) ;;
  m6 <- add_private_field (src E ams_java) ;;
  m7 <- add_public_api (src E ams_java) ;;
  m8 <- modify_resource (src E config_xml) ;;
  m9 <- add_resource (src E config_xml) ;;
  let mixed_build_launch_cujs := m1 ++ [m2; m3; m4; m5; m6; m7; m8; m9] in
  u1 <- map_build
          (fun d => create_delete (joinpath d "unreferenced.txt") SYMLINK None)
          [ancestor; pkg] ;;
  u2 <- map_build
          (fun d => create_delete (joinpath d "unreferenced.txt") UNDER_SYMLINK None)
          [pkg_free; leaf_pkg_free] ;;
  let unreferenced_file_cujs := u1 ++ u2 in
  c1 <- get_cuj_group E fs [(src E ".", type_in E "genrule")] "genrules" ;;
  c2 <- get_cuj_group E fs [(src E ".", cc_)] "cc_" ;;
  c3 <- get_cuj_group E fs
          [(src E "packages/modules/adb/Android.bp", name_in E "adbd")] "adbd" ;;
  c4 <- get_cuj_group E fs
          [(src E "packages/modules/NeuralNetworks/runtime/Android.bp", libNN)]
          "libNN" ;;
  c5 <- get_cuj_group E fs
          [(src E "packages/modules/adb/Android.bp", name_in E "adbd");
           (src E "packages/modules/NeuralNetworks/runtime/Android.bp", libNN)]
          "adbd&libNN" ;;
  let cloning_cujs := [c1; c2; c3; c4; c5] in
  g <- create_delete (src E "bionic/libc/tzcode/globbed.c") UNDER_SYMLINK None ;;
  dr <- map_build (fun f => delete_restore f SYMLINK)
          [src E "bionic/libc/version_script.txt";
           src E "external/cbor-java/AndroidManifest.xml"] ;;
  unkept <- _unkept_build_cujs ;;
  kept <- _kept_build_cujs ;;
  r <- replace_link_with_dir (joinpath pkg "bogus.txt") ;;
  ret ([Group "" [Step "clean" clean NoVerify]; Group "" (steps Warmup)]
       ++ cloning_cujs ++ [g] ++ dr ++ unreferenced_file_cujs
       ++ mixed_build_launch_cujs ++ android_bp_cujs ++ unkept ++ kept ++ [r]).

End Recipes.

(** ** A small concrete setting *)

(** First-match replacement of a literal: what [re.sub] with [count=1] does
    for a pattern and a replacement without special characters. *)
Fixpoint strip_prefix (pat t : text) : option text :=
  match pat, t with
  | [], _ => Some t
  | _ :: _, [] => None
  | a :: pat', b :: t' => if (a =? b)%N then strip_prefix pat' t' else None
  end.

Fixpoint replace_first (pat rep t : text) : text :=
  match strip_prefix pat t with
  | Some rest => rep ++ rest
  | None =>
      match t with
      | [] => []
      | c :: t' => c :: replace_first pat rep t'
      end
  end.

Definition join_slash (l : list string) : string :=
  match l with
  | [] => "."
  | c :: l' => fold_left (fun acc d => acc +:+ "/" +:+ d) l' c
  end.

(** A source tree at [/src] with its output tree at [/src/out], the
    temporary directory at [/tmp] and the logs at [/logs]. *)
Definition demo_env : env :=
  {| src := fun s => joinpath ["src"] s;
     de_src := fun p => join_slash (rev (take (length p - 1) p));
     ws_counterpart := fun p =>
       take (length p - 1) p ++ ["workspace"; "soong"; "out"; "src"];
     top_dir := ["src"];
     out_dir := ["out"; "src"];
     log_dir := ["logs"];
     tempdir := ["tmp"];
     device := fun _ => 0%N;
     confirm := fun _ _ _ => None;
     re_sub := fun pat rep t =>
       OK (replace_first (text_of_string pat) (text_of_string rep) t);
     type_in := fun s t _ => String.eqb s t;
     name_in := fun s _ n => String.eqb s n;
     get_cuj_group := fun _ _ d => ret (Group d []) |}.

Definition demo_rng : rng := Rng (fun n => N.of_nat n) (fun n => Z.of_nat n) 0.
Definition demo_state : cstate := CState demo_rng 0.

Definition hello : bytes := [Byte.x68; Byte.x65; Byte.x6c; Byte.x6c; Byte.x6f; Byte.x0a].

(** [/src] holds [a.txt] with the line [hello]; [/tmp] is empty. *)
Definition demo_fs : filesystem :=
  <[ ["a.txt"; "src"] := File hello ]>
    (<[ ["src"] := Dir ]> (<[ ["tmp"] := Dir ]> (<[ root := Dir ]> ∅))).

Definition demo_world : world := World demo_fs ∅.

(** The groups a construction built, or none when it raised. *)
Definition built {A} (r : result (A * cstate)) : option A :=
  match r with
  | OK (a, _) => Some a
  | Err _ => None
  end.

Definition raised {A} (r : result A) : option exn :=
  match r with
  | OK _ => None
  | Err e => Some e
  end.

Definition no_slash (s : string) : bool :=
  forallb (fun c => negb (Ascii.eqb c "/"%char)) (list_ascii_of_string s).

(** ** Definitions used by the statements *)

(** A character of a generated name: ASCII and not the path separator. *)
Definition plain (a : ascii) : Prop :=
  (N_of_ascii a < 128)%N /\ N_of_ascii a <> 47%N.

(** The name of the copy that [delete_restore] makes. *)
Definition backup_name (original : path) (u : N) : string :=
  name original +:+ "-" +:+ uuid_str u +:+ ".bak".

Definition demo_xml : bytes := list_byte_of_string "<a>0</a>".
Definition demo_xml_modified : bytes := list_byte_of_string "<a>7</a>".
Definition config : path := ["config.xml"; "src"].
Definition demo_xml_fs : filesystem := <[ config := File demo_xml ]> demo_fs.
Definition demo_xml_world : world := World demo_xml_fs ∅.

(** The functions of the catalog that call [regex_modify_revert] with a
    fixed pattern, a replacement around a random number and a label. *)
Inductive canned : Type :=
| ModifyPrivateMethod
| AddPrivateField
| AddPublicApi
| ModifyResource
| AddResource.

Definition canned_variants : list canned :=
  [ModifyPrivateMethod; AddPrivateField; AddPublicApi; ModifyResource; AddResource].

Definition canned_recipe (c : canned) : env -> filesystem -> path -> build CujGroup :=
  match c with
  | ModifyPrivateMethod => modify_private_method
  | AddPrivateField => add_private_field
  | AddPublicApi => add_public_api
  | ModifyResource => modify_resource
  | AddResource => add_resource
  end.

Definition canned_pattern (c : canned) : string :=
  match c with
  | ModifyPrivateMethod => "(private static boolean.*{)"
  | AddPrivateField => "^" +:+ backslash +:+ "}$"
  | AddPublicApi => backslash +:+ "}$"
  | ModifyResource => ">0<"
  | AddResource => "</resources>"
  end.

Definition canned_replacement (c : canned) (n : Z) : string :=
  match c with
  | ModifyPrivateMethod =>
      backslash +:+ "1 Log.d(" +:+ dquote +:+ "Placeholder" +:+ dquote +:+ ", "
      +:+ dquote +:+ "Placeholder" +:+ str_int n +:+ dquote +:+ ");"
  | AddPrivateField =>
      "private static final int FOO = " +:+ str_int n +:+ ";" +:+ newline +:+ "}"
  | AddPublicApi =>
      "public static final int BAZ = " +:+ str_int n +:+ ";" +:+ newline +:+ "}"
  | ModifyResource => ">" +:+ str_int n +:+ "<"
  | AddResource =>
      "    <integer name=" +:+ dquote +:+ "foo" +:+ dquote +:+ ">" +:+ str_int n
      +:+ "</integer>" +:+ backslash +:+ "n</resources>"
  end.

Definition canned_label (c : canned) : string :=
  match c with
  | ModifyPrivateMethod => "modify_private_method"
  | AddPrivateField => "add_private_field"
  | AddPublicApi => "add_public_api"
  | ModifyResource => "modify_resource"
  | AddResource => "add_resource"
  end.

(** The label the group of a canned recipe carries on its first step, when
    the recipe is run in the concrete setting. *)
Definition demo_label (c : canned) : option string :=
  g ← built (canned_recipe c demo_env demo_xml_fs config demo_state);
  verb <$> head (steps g).

Definition e_acute : text := [233%N].

(** The calls of [finder.confirm] that [get_cujgroups] makes itself. *)
Definition top_confirmations (E : env) : list (path * list string) :=
  [(src E "art", [non_empty_dir; "Android.bp"; "!BUILD*"]);
   (src E "bionic/docs", [non_empty_dir; "!**/Android.bp"; "!**/BUILD*"]);
   (src E "bionic", ["**/Android.bp"; "!Android.bp"; "!BUILD*"]);
   (src E "bionic/build", ["!" +:+ non_empty_dir; "!**/Android.bp"; "!**/BUILD*"])].

Definition unkept_confirmation (E : env) : path * list string :=
  (src E "bionic/libm", unkept_patterns).

Definition kept_confirmation (E : env) : path * list string :=
  (src E "build/bazel", kept_patterns).

Definition catalog_confirmations (E : env) : list (path * list string) :=
  top_confirmations E ++ [unkept_confirmation E; kept_confirmation E].

(** The exception of the first confirmation of [l] that fails. *)
Fixpoint first_failure (E : env) (fs : filesystem) (l : list (path * list string))
  : option exn :=
  match l with
  | [] => None
  | c :: l' =>
      match confirm E fs c.1 c.2 with
      | Some e => Some e
      | None => first_failure E fs l'
      end
  end.

(** The demo setting with a source tree whose [art] directory has lost its
    Android.bp. *)
Definition drifted_env : env :=
  {| src := src demo_env;
     de_src := de_src demo_env;
     ws_counterpart := ws_counterpart demo_env;
     top_dir := top_dir demo_env;
     out_dir := out_dir demo_env;
     log_dir := log_dir demo_env;
     tempdir := tempdir demo_env;
     device := device demo_env;
     confirm := fun _ r _ =>
       if bool_decide (r = ["art"; "src"])
       then Some (RuntimeError "/src/art/Android.bp expected")
       else None;
     re_sub := re_sub demo_env;
     type_in := type_in demo_env;
     name_in := name_in demo_env;
     get_cuj_group := get_cuj_group demo_env |}.

(** A check of [wf_fs] that computes. *)
Definition wf_fsb (fs : filesystem) : bool :=
  is_dir fs root
  && bool_decide
       (map_Forall
          (fun (k : path) (_ : node) =>
             Is_true match k with
                     | [] => true
                     | _ :: p => is_dir fs p
                     end) fs).

(** ** Definitions used by the further properties *)

(** The closures of [create_delete], with what they capture. *)
Definition create_step_of (file : path) (t : text) : change :=
  fun w =>
    if path_exists (files w) file
    then Raised (RuntimeError
                   ("File " +:+ str_path file
                    +:+ " already exists. Interrupted an earlier run?" +:+ newline
                    +:+ "TIP: `repo status` and revert changes!!!")) w
    else (on_files (mkdir_parents (parent file)) >> on_files (touch file)
          >> on_files (open_w file) >> on_files (write_end file t)) w.

Definition delete_step_of (fs : filesystem) (file : path) : change :=
  match last (filter (fun f => ~ path_exists fs f) (parents file)) with
  | Some d => on_files (rmtree d)
  | None => on_files (unlink file)
  end.

(** A group of exactly two steps. *)
Definition pair_of_steps (g : CujGroup) : Prop := length (steps g) = 2.

(** A construction that ends without an exception. *)
Definition returns {A} (r : result (A * cstate)) : Prop :=
  exists a st', r = OK (a, st').

(** The files the catalog edits in place. *)
Definition edited_files : list string :=
  ["Android.bp"; "bionic/libc/tzcode/asctime.c"; "bionic/libc/stdio/stdio.cpp";
   "packages/modules/adb/daemon/main.cpp";
   "frameworks/base/core/java/android/view/View.java";
   settings_java; ams_java; config_xml].

(** [x] stands in [t] at the start of a line. *)
Definition at_line_start (x t : text) : Prop :=
  exists t1 t2, t = t1 ++ x ++ t2 /\ (t1 = [] \/ exists t0, t1 = t0 ++ [10%N]).

(** A source tree that holds every file the catalog edits in place. *)
Definition demo_catalog_fs : filesystem :=
  list_to_map
    ((fun f => (src demo_env f, File [])) <$>
       edited_files ++ ["build/bazel/rules/python/BUILD"]).

(** The demo setting with [/tmp] on a mounted filesystem of its own. *)
Definition tmpfs_env : env :=
  {| src := src demo_env;
     de_src := de_src demo_env;
     ws_counterpart := ws_counterpart demo_env;
     top_dir := top_dir demo_env;
     out_dir := out_dir demo_env;
     log_dir := log_dir demo_env;
     tempdir := tempdir demo_env;
     device := fun p => if is_relative_to p ["tmp"] then 1%N else 0%N;
     confirm := confirm demo_env;
     re_sub := re_sub demo_env;
     type_in := type_in demo_env;
     name_in := name_in demo_env;
     get_cuj_group := get_cuj_group demo_env |}.

(** The demo world after [a.txt] has gone. *)
Definition demo_gone_world : world := World (delete ["a.txt"; "src"] demo_fs) ∅.

(** The demo world with an output tree that holds one object file. *)
Definition demo_out_world : world :=
  World (<[ ["x.o"; "out"; "src"] := File [] ]> (<[ ["out"; "src"] := Dir ]> demo_fs)) ∅.

(** * Properties *)

Example demo_create_delete :
  match create_delete demo_env demo_fs ["new.txt"; "dir"; "src"] SYMLINK None demo_state with
  | OK (g, _) => run_steps (steps g) demo_world = Done demo_world
  | Err _ => False
  end.
Proof. vm_compute. reflexivity. Qed.

(** ** Preconditions checked when a group is built *)

Lemma bind_ok {A B} (m : build A) (f : A -> build B) st a st' :
  m st = OK (a, st') -> bind m f st = f a st'.
Proof. unfold bind. by intros ->. Qed.

Lemma bind_err {A B} (m : build A) (f : A -> build B) st e :
  m st = Err e -> bind m f st = Err e.
Proof. unfold bind. by intros ->. Qed.

Section FailFast.

Variable E : env.
Variable fs : filesystem.

Lemma default_text_total (mk : N -> text) (text_ : option text) (st : cstate) :
  exists t st',
    match text_ with
    | None => u <- draw_uuid ;; ret (mk u)
    | Some t => ret t
    end st = OK (t, st').
Proof.
  destruct text_ as [t|]; cbn.
  - by exists t, st.
  - unfold bind, draw_uuid. destruct (uuid4 (rand st)) as [u r]. cbn. eauto.
Qed.

(** C7, as the code has it.  Both [modify_revert] and [regex_modify_revert]
    raise RuntimeError while the group is built when nothing exists at the
    path, neither a file nor a directory; no group, and so no step, comes out
    of the call. *)
Theorem missing_target_fails_fast (file : path) (text_ : option text)
    (pattern replacement modify_type : string) (st : cstate) :
  path_exists fs file = false ->
  modify_revert E fs file text_ st
    = Err (RuntimeError (str_path file +:+ " does not exist"))
  /\ regex_modify_revert E fs file pattern replacement modify_type st
    = Err (RuntimeError (str_path file +:+ " does not exist")).
Proof.
  intros Hmissing. split.
  - unfold modify_revert.
    destruct (default_text_total bogus_marker text_ st) as (t & st' & Ht).
    rewrite (bind_ok _ _ _ _ _ Ht). by rewrite Hmissing.
  - unfold regex_modify_revert. by rewrite Hmissing.
Qed.

(** C4. The create step of [create_delete], run while the target exists,
    raises RuntimeError and leaves the world as it found it. *)
Theorem create_refuses_existing_target (file : path) (ws : InWorkspace)
    (text_ : option text) (st : cstate) (w : world) :
  path_exists (files w) file = true ->
  exists g st' create delete msg,
    create_delete E fs file ws text_ st = OK (g, st')
    /\ steps g = [create; delete]
    /\ verb create = "create"
    /\ apply_change create w = Raised (RuntimeError msg) w.
Proof.
  intros Hexists. unfold create_delete.
  destruct (default_text_total test_file_marker text_ st) as (t & st' & Ht).
  rewrite (bind_ok _ _ _ _ _ Ht). cbn. do 5 eexists. split; [reflexivity|].
  split; [reflexivity|]. split; [reflexivity|].
  cbn. rewrite Hexists. reflexivity.
Qed.

End FailFast.

Lemma missing_target_fails_fast_witness :
  modify_revert demo_env demo_fs ["b.txt"; "src"] None demo_state
    = Err (RuntimeError "/src/b.txt does not exist")
  /\ regex_modify_revert demo_env demo_fs ["b.txt"; "src"] ">0<" ">1<"
       "modify_resource" demo_state
    = Err (RuntimeError "/src/b.txt does not exist").
Proof.
  apply (missing_target_fails_fast demo_env demo_fs ["b.txt"; "src"]).
  vm_compute. reflexivity.
Defined.

(** C7 as it is worded fails at a directory: [/src] is no file, yet
    [Path.exists()] holds of it, both constructors build their group, and the
    failure comes only when the modify step is run. *)
Lemma directory_target_passes_the_check :
  demo_fs !! ["src"] = Some Dir
  /\ (exists g st' modify revert,
        modify_revert demo_env demo_fs ["src"] None demo_state = OK (g, st')
        /\ steps g = [modify; revert]
        /\ apply_change modify demo_world
           = Raised (IsADirectoryError ["src"]) demo_world)
  /\ (exists g st' modify revert,
        regex_modify_revert demo_env demo_fs ["src"] ">0<" ">1<"
          "modify_resource" demo_state = OK (g, st')
        /\ steps g = [modify; revert]
        /\ apply_change modify demo_world
           = Raised (IsADirectoryError ["src"]) demo_world).
Proof.
  split; [vm_compute; reflexivity|]. split.
  - unfold modify_revert, bind, draw_uuid. cbn [uuid4 rand demo_state demo_rng].
    replace (path_exists demo_fs ["src"]) with true by (vm_compute; reflexivity).
    do 4 eexists. split; [reflexivity|]. split; [reflexivity|].
    vm_compute. reflexivity.
  - unfold regex_modify_revert.
    replace (path_exists demo_fs ["src"]) with true by (vm_compute; reflexivity).
    do 4 eexists. split; [reflexivity|]. split; [reflexivity|].
    vm_compute. reflexivity.
Qed.

Lemma create_refuses_existing_target_witness :
  exists g st' create delete msg,
    create_delete demo_env demo_fs ["a.txt"; "src"] SYMLINK None demo_state
      = OK (g, st')
    /\ steps g = [create; delete]
    /\ verb create = "create"
    /\ apply_change create demo_world = Raised (RuntimeError msg) demo_world.
Proof.
  apply (create_refuses_existing_target demo_env demo_fs ["a.txt"; "src"]).
  vm_compute. reflexivity.
Defined.

(** ** Build files that are kept *)

Section KeptBuildFile.

Variable E : env.
Variable fs : filesystem.

Lemma draw_uuid_total (st : cstate) :
  exists u st', draw_uuid st = OK (u, st').
Proof. unfold draw_uuid. destruct (uuid4 (rand st)) as [u r]. eauto. Qed.

Lemma create_delete_given_text (file : path) (ws : InWorkspace) (t : text)
    (st : cstate) :
  exists create delete,
    create_delete E fs file ws (Some t) st
      = OK (Group (de_src E file)
              [Step "create" create (WsVerifier ws file);
               Step "delete" delete (WsVerifier OMISSION file)], st).
Proof. unfold create_delete, bind, ret. cbn. eauto. Qed.

(** C10. Provided the workspace counterpart of [build_file] has a name,
    [create_delete_kept_build_file] raises RuntimeError exactly when the
    name of [build_file] is neither BUILD nor BUILD.bazel; for BUILD.bazel
    the create step verifies NOT_UNDER_SYMLINK, for BUILD it verifies
    SYMLINK. *)
Theorem kept_build_file_name_decides (build_file : path) (st : cstate) :
  ws_counterpart E build_file <> root ->
  ((exists msg,
       create_delete_kept_build_file E fs build_file st = Err (RuntimeError msg))
   <-> (name build_file <> "BUILD" /\ name build_file <> "BUILD.bazel"))
  /\ (name build_file = "BUILD.bazel" ->
      exists g st' create delete merge_prover,
        create_delete_kept_build_file E fs build_file st = OK (g, st')
        /\ steps g = [create; delete]
        /\ verb create = "create"
        /\ verify create
           = Sequence (WsVerifier NOT_UNDER_SYMLINK build_file) merge_prover)
  /\ (name build_file = "BUILD" ->
      exists g st' create delete merge_prover,
        create_delete_kept_build_file E fs build_file st = OK (g, st')
        /\ steps g = [create; delete]
        /\ verb create = "create"
        /\ verify create = Sequence (WsVerifier SYMLINK build_file) merge_prover).
Proof.
  intros Hnamed. unfold create_delete_kept_build_file.
  destruct (draw_uuid_total st) as (u & st1 & Hu).
  rewrite (bind_ok _ _ _ _ _ Hu).
  destruct (ws_counterpart E build_file) as [|n q] eqn:Hws; [done|].
  cbn [with_name lift]. rewrite (bind_ok _ _ st1 (("BUILD.bazel" : string) :: q) st1 eq_refl).
  destruct (String.eqb_spec (name build_file) "BUILD.bazel") as [Hbazel|Hbazel].
  - rewrite (bind_ok _ _ st1 NOT_UNDER_SYMLINK st1 eq_refl).
    destruct (create_delete_given_text build_file NOT_UNDER_SYMLINK
                (bogus_marker u) st1) as (cr & de & Hcd).
    rewrite (bind_ok _ _ _ _ _ Hcd). cbn.
    split; [|split].
    + split; [intros [msg Hmsg]; discriminate | intros [_ Hne]; done].
    + intros _. do 5 eexists. repeat split; reflexivity.
    + intros Hbuild. rewrite Hbuild in Hbazel. discriminate.
  - destruct (String.eqb_spec (name build_file) "BUILD") as [Hbuild|Hbuild].
    + rewrite (bind_ok _ _ st1 SYMLINK st1 eq_refl).
      destruct (create_delete_given_text build_file SYMLINK
                  (bogus_marker u) st1) as (cr & de & Hcd).
      rewrite (bind_ok _ _ _ _ _ Hcd). cbn.
      split; [|split].
      * split; [intros [msg Hmsg]; discriminate | intros [Hne _]; done].
      * intros Heq. done.
      * intros _. do 5 eexists. repeat split; reflexivity.
    + rewrite (bind_err _ _ st1 _ eq_refl).
      split; [|split]; [|done|done].
      split; [done | intros _; eauto].
Qed.

End KeptBuildFile.

Lemma kept_build_file_name_decides_witness :
  ((exists msg,
       create_delete_kept_build_file demo_env demo_fs ["BUILD"; "compliance"; "src"]
         demo_state = Err (RuntimeError msg))
   <-> (name ["BUILD"; "compliance"; "src"] <> "BUILD"
        /\ name ["BUILD"; "compliance"; "src"] <> "BUILD.bazel"))
  /\ (name ["BUILD"; "compliance"; "src"] = "BUILD.bazel" ->
      exists g st' create delete merge_prover,
        create_delete_kept_build_file demo_env demo_fs
          ["BUILD"; "compliance"; "src"] demo_state = OK (g, st')
        /\ steps g = [create; delete]
        /\ verb create = "create"
        /\ verify create
           = Sequence (WsVerifier NOT_UNDER_SYMLINK ["BUILD"; "compliance"; "src"])
               merge_prover)
  /\ (name ["BUILD"; "compliance"; "src"] = "BUILD" ->
      exists g st' create delete merge_prover,
        create_delete_kept_build_file demo_env demo_fs
          ["BUILD"; "compliance"; "src"] demo_state = OK (g, st')
        /\ steps g = [create; delete]
        /\ verb create = "create"
        /\ verify create
           = Sequence (WsVerifier SYMLINK ["BUILD"; "compliance"; "src"])
               merge_prover).
Proof.
  apply (kept_build_file_name_decides demo_env demo_fs
           ["BUILD"; "compliance"; "src"] demo_state).
  vm_compute. discriminate.
Defined.

(** ** Names of generated entries *)

Lemma hex_digit_plain (d : N) : (d < 16)%N -> plain (hex_digit d).
Proof.
  intros Hd. unfold plain, hex_digit.
  destruct (d <? 10)%N eqn:Hlt; rewrite N_ascii_embedding by lia; lia.
Qed.

Lemma hex_digits_plain (k : nat) (n : N) (acc : list ascii) :
  Forall plain acc -> Forall plain (hex_digits k n acc).
Proof.
  revert n acc. induction k as [|k IH]; intros n acc Hacc; cbn; [done|].
  apply IH. constructor; [|done].
  apply hex_digit_plain. apply N.mod_upper_bound. lia.
Qed.

Lemma hyphen_plain : plain "-"%char.
Proof. split; vm_compute; [reflexivity | discriminate]. Qed.

Lemma uuid_chars_plain (u : N) : Forall plain (uuid_chars u).
Proof.
  unfold uuid_chars.
  assert (Hh : Forall plain (hex_digits 32 u [])) by (apply hex_digits_plain; constructor).
  repeat first
    [ apply Forall_app; split
    | apply Forall_take
    | apply Forall_drop
    | apply Forall_cons; split; [apply hyphen_plain|]
    | apply Forall_nil_2
    | exact Hh ].
Qed.

Lemma uuid_text_one_byte (u : N) : one_byte_per_char (uuid_text u).
Proof.
  unfold one_byte_per_char, uuid_text. apply Forall_fmap.
  eapply Forall_impl; [apply uuid_chars_plain|]. by intros a [Ha _].
Qed.

Lemma plain_not_slash (a : ascii) : plain a -> Ascii.eqb a "/"%char = false.
Proof.
  intros [_ Ha]. apply Ascii.eqb_neq. intros ->. by apply Ha.
Qed.

Lemma append_assoc (a b c : string) : (a +:+ b) +:+ c = a +:+ (b +:+ c).
Proof.
  induction a as [|x a IH]; [reflexivity|].
  change (String x ((a +:+ b) +:+ c) = String x (a +:+ (b +:+ c))).
  by rewrite IH.
Qed.

Lemma list_ascii_of_append (a b : string) :
  list_ascii_of_string (a +:+ b)
  = list_ascii_of_string a ++ list_ascii_of_string b.
Proof.
  induction a as [|x a IH]; [reflexivity|].
  change (x :: list_ascii_of_string (a +:+ b)
          = x :: (list_ascii_of_string a ++ list_ascii_of_string b)).
  by rewrite IH.
Qed.

Lemma no_slash_append (a b : string) :
  no_slash (a +:+ b) = no_slash a && no_slash b.
Proof. unfold no_slash. by rewrite list_ascii_of_append, forallb_app. Qed.

Lemma no_slash_uuid_str (u : N) : no_slash (uuid_str u) = true.
Proof.
  unfold no_slash, uuid_str. rewrite list_ascii_of_string_of_list_ascii.
  apply forallb_forall. intros a Ha.
  assert (Hp : plain a).
  { pose proof (uuid_chars_plain u) as HF. rewrite Forall_forall in HF.
    apply HF. by apply list_elem_of_In. }
  by rewrite (plain_not_slash a Hp).
Qed.

Lemma append_empty_r (a : string) : a +:+ "" = a.
Proof.
  induction a as [|x a IH]; [reflexivity|].
  change (String x (a +:+ "") = String x a). by rewrite IH.
Qed.

Lemma split_slash_no_slash (s acc : string) :
  no_slash s = true -> split_slash s acc = [acc +:+ s].
Proof.
  revert acc. induction s as [|c s IH]; intros acc Hs.
  - by rewrite append_empty_r.
  - change (no_slash (String c s))
      with (negb (Ascii.eqb c "/"%char) && no_slash s) in Hs.
    apply andb_prop in Hs as [Hc Hs]. apply negb_true_iff in Hc.
    change (split_slash (String c s) acc)
      with (if Ascii.eqb c "/"%char then acc :: split_slash s ""
            else split_slash s (acc +:+ String c "")).
    rewrite Hc, IH by exact Hs. by rewrite append_assoc.
Qed.

Lemma joinpath_component (p : path) (s : string) :
  no_slash s = true -> s <> "" -> s <> "." -> joinpath p s = s :: p.
Proof.
  intros Hs Hne Hdot. unfold joinpath.
  assert (Habs : is_absolute s = false).
  { destruct s as [|c s]; [done|]. unfold no_slash in Hs. cbn in Hs.
    apply andb_prop in Hs as [Hc _]. by apply negb_true_iff in Hc. }
  rewrite Habs. unfold parts. rewrite split_slash_no_slash by exact Hs.
  cbn [append]. rewrite filter_cons_True by done. by rewrite filter_nil.
Qed.

Lemma backup_name_component (original : path) (u : N) (p : path) :
  no_slash (name original) = true ->
  joinpath p (backup_name original u) = backup_name original u :: p.
Proof.
  intros Hname. unfold backup_name. apply joinpath_component.
  - rewrite !no_slash_append, Hname, no_slash_uuid_str. reflexivity.
  - destruct (name original); discriminate.
  - destruct (name original) as [|c [|d n]]; cbn; try discriminate.
Qed.

(** ** The temporary copy of [delete_restore] *)

Section DeleteRestore.

Variable E : env.

Lemma suffix_cons_cases (s : string) (p q : path) :
  q `suffix_of` s :: p -> q = s :: p \/ q `suffix_of` p.
Proof.
  intros [k Hk]. destruct k as [|x k]; cbn in Hk.
  - by left.
  - right. injection Hk as _ ->. by exists k.
Qed.

Lemma is_relative_to_child (s : string) (p q : path) :
  is_relative_to p q = false -> s :: p <> q -> is_relative_to (s :: p) q = false.
Proof.
  unfold is_relative_to. intros Hp Hne.
  apply bool_decide_eq_false. apply bool_decide_eq_false in Hp.
  intros [Heq|Hsuf]%suffix_cons_cases; [by apply Hne | by apply Hp].
Qed.

(** C6. [delete_restore] raises SystemExit, and so builds no group, exactly
    when the temporary directory lies under the source tree or under the
    output tree.  Otherwise its delete step renames the file to an entry
    directly inside the temporary directory; that entry lies outside both
    trees, the freshly drawn name being that of neither tree's root. *)
Theorem delete_restore_avoids_tracked_trees (original : path) (ws : InWorkspace)
    (st : cstate) :
  let copied := joinpath (tempdir E) (backup_name original (uuid4 (rand st)).1) in
  no_slash (name original) = true ->
  copied <> top_dir E ->
  copied <> out_dir E ->
  ((exists msg, delete_restore E original ws st = Err (SystemExit msg))
   <-> (is_relative_to (tempdir E) (top_dir E) = true
        \/ is_relative_to (tempdir E) (out_dir E) = true))
  /\ (is_relative_to (tempdir E) (top_dir E) = false ->
      is_relative_to (tempdir E) (out_dir E) = false ->
      exists g st' delete restore,
        delete_restore E original ws st = OK (g, st')
        /\ steps g = [delete; restore]
        /\ verb delete = "delete"
        /\ apply_change delete = on_files (rename (device E) original copied)
        /\ apply_change restore = on_files (rename (device E) copied original)
        /\ parent copied = tempdir E
        /\ is_relative_to copied (top_dir E) = false
        /\ is_relative_to copied (out_dir E) = false).
Proof.
  intros copied Hname Htop Hout. unfold delete_restore.
  destruct (is_relative_to (tempdir E) (top_dir E)) eqn:Hrt.
  { split; [|done]. split; [intros _; by left | intros _; eauto]. }
  destruct (is_relative_to (tempdir E) (out_dir E)) eqn:Hro.
  { split; [|done]. split; [intros _; by right | intros _; eauto]. }
  unfold bind, draw_uuid.
  subst copied. unfold backup_name in *.
  destruct (uuid4 (rand st)) as [u r]. cbn [fst] in *.
  split.
  - split; [intros [msg Hmsg]; discriminate | intros [?|?]; discriminate].
  - intros _ _. do 4 eexists.
    split; [reflexivity|]. split; [reflexivity|]. split; [reflexivity|].
    split; [reflexivity|]. split; [reflexivity|].
    fold (backup_name original u) in *.
    rewrite (backup_name_component original u (tempdir E) Hname) in *.
    split; [reflexivity|]. split; by apply is_relative_to_child.
Qed.

End DeleteRestore.

Lemma delete_restore_avoids_tracked_trees_witness :
  exists g st' delete restore,
    delete_restore demo_env ["a.txt"; "src"] SYMLINK demo_state = OK (g, st')
    /\ steps g = [delete; restore]
    /\ verb delete = "delete"
    /\ apply_change delete
       = on_files (rename (device demo_env) ["a.txt"; "src"]
                     ["a.txt-00000000-0000-0000-0000-000000000000.bak"; "tmp"])
    /\ apply_change restore
       = on_files (rename (device demo_env)
                     ["a.txt-00000000-0000-0000-0000-000000000000.bak"; "tmp"]
                     ["a.txt"; "src"])
    /\ parent ["a.txt-00000000-0000-0000-0000-000000000000.bak"; "tmp"]
       = tempdir demo_env
    /\ is_relative_to ["a.txt-00000000-0000-0000-0000-000000000000.bak"; "tmp"]
         (top_dir demo_env) = false
    /\ is_relative_to ["a.txt-00000000-0000-0000-0000-000000000000.bak"; "tmp"]
         (out_dir demo_env) = false.
Proof.
  apply (delete_restore_avoids_tracked_trees demo_env ["a.txt"; "src"]
           SYMLINK demo_state);
    first [ vm_compute; reflexivity | vm_compute; discriminate ].
Defined.

(** ** The captured text of [regex_modify_revert] *)

Section RegexModifyRevert.

Variable E : env.
Variable fs : filesystem.

Lemma write_text_done (p : path) (t : text) (w w' : world) :
  write_text p t w = Done w' -> cells w' = cells w.
Proof.
  unfold write_text, and_then, on_files.
  destruct (open_w p (files w)) as [fs1|e]; [|discriminate]. cbn.
  destruct (write_end p t fs1) as [fs2|e]; [|discriminate].
  by intros [= <-].
Qed.

Lemma write_text_cells (p : path) (t : text) (now : filesystem) (cs cs' : gmap nat text) :
  match write_text p t (World now cs) with
  | Done w => write_text p t (World now cs') = Done (World (files w) cs')
  | Raised e w => write_text p t (World now cs') = Raised e (World (files w) cs')
  end.
Proof.
  unfold write_text, and_then, on_files. cbn.
  destruct (open_w p now) as [fs1|e]; [|done]. cbn.
  by destruct (write_end p t fs1) as [fs2|e].
Qed.

(** C3, as the code has it.  The modify step of [regex_modify_revert] has no
    guard on the captured variable: whether it succeeds does not depend on
    what the variable holds, and every successful application stores the
    file text it has just read; the revert step then writes the stored text
    back.  A second modify without a revert in between so captures the
    already modified text. *)
Theorem regex_modify_recaptures (file : path) (pattern replacement modify_type : string)
    (st : cstate) :
  path_exists fs file = true ->
  exists g st' modify revert,
    regex_modify_revert E fs file pattern replacement modify_type st = OK (g, st')
    /\ steps g = [modify; revert]
    /\ verb modify = modify_type
    /\ forall w w1,
         apply_change modify w = Done w1 ->
         exists t,
           read_text file (files w) = OK t
           /\ cells w1 = <[next_cell st := t]> (cells w)
           /\ (forall cs, apply_change modify (World (files w) cs)
                          = Done (World (files w1) (<[next_cell st := t]> cs)))
           /\ apply_change revert w1 = write_text file t w1.
Proof.
  intros Hexists. unfold regex_modify_revert. rewrite Hexists. cbn.
  do 4 eexists. split; [reflexivity|]. split; [reflexivity|]. split; [reflexivity|].
  intros w w1. cbn.
  destruct (read_text file (files w)) as [t|e] eqn:Hread; [|discriminate].
  destruct (re_sub E pattern replacement t) as [m|e] eqn:Hsub; [|discriminate].
  intros Hw. exists t. split; [reflexivity|].
  pose proof (write_text_done _ _ _ _ Hw) as Hcells. cbn in Hcells.
  split; [exact Hcells|]. split.
  - intros cs.
    pose proof (write_text_cells file m (files w) (<[next_cell st:=t]> (cells w))
                  (<[next_cell st:=t]> cs)) as Hany.
    rewrite Hw in Hany. exact Hany.
  - rewrite Hcells, lookup_insert_eq. reflexivity.
Qed.

End RegexModifyRevert.

Lemma regex_modify_recaptures_witness :
  exists g st' modify revert,
    regex_modify_revert demo_env demo_xml_fs config ">0<" ">7<" "modify_resource"
      demo_state = OK (g, st')
    /\ steps g = [modify; revert]
    /\ verb modify = "modify_resource"
    /\ forall w w1,
         apply_change modify w = Done w1 ->
         exists t,
           read_text config (files w) = OK t
           /\ cells w1 = <[next_cell demo_state := t]> (cells w)
           /\ (forall cs, apply_change modify (World (files w) cs)
                          = Done (World (files w1) (<[next_cell demo_state := t]> cs)))
           /\ apply_change revert w1 = write_text config t w1.
Proof.
  apply (regex_modify_recaptures demo_env demo_xml_fs config).
  vm_compute. reflexivity.
Defined.

(** C3, as the claim has it, fails: on a file holding [<a>0</a>], with the
    literal pattern [>0<] replaced by [>7<], the second modify in a row
    returns normally and stores the modified text in place of the original;
    the revert that follows leaves the modified text in the file. *)
Lemma regex_modify_twice_overwrites_original :
  exists g st' modify revert w1 w2 w3,
    regex_modify_revert demo_env demo_xml_fs config ">0<" ">7<" "modify_resource"
      demo_state = OK (g, st')
    /\ steps g = [modify; revert]
    /\ apply_change modify demo_xml_world = Done w1
    /\ cells w1 !! 0 = Some (text_of_string "<a>0</a>")
    /\ apply_change modify w1 = Done w2
    /\ cells w2 !! 0 = Some (text_of_string "<a>7</a>")
    /\ apply_change revert w2 = Done w3
    /\ files w3 !! config = Some (File demo_xml_modified)
    /\ files demo_xml_world !! config = Some (File demo_xml)
    /\ demo_xml_modified <> demo_xml.
Proof.
  unfold regex_modify_revert.
  replace (path_exists demo_xml_fs config) with true by (vm_compute; reflexivity).
  do 7 eexists.
  split; [reflexivity|]. split; [reflexivity|].
  split; [vm_compute; reflexivity|]. split; [vm_compute; reflexivity|].
  split; [vm_compute; reflexivity|]. split; [vm_compute; reflexivity|].
  split; [vm_compute; reflexivity|]. split; [vm_compute; reflexivity|].
  split; [vm_compute; reflexivity|]. vm_compute. discriminate.
Qed.

(** ** The canned substitutions *)

(** C5, as the code has it.  There are five canned variants: each is
    [regex_modify_revert] at its own pattern, its own replacement around a
    number drawn from 0 to 1000 and its own label, and nothing else; the
    five labels and the five patterns are pairwise different.  Editing a
    resource entry and adding one are two variants. *)
Theorem canned_variants_five :
  (forall c E fs file,
      canned_recipe c E fs file
      = (n <- draw_int 0 1000 ;;
         regex_modify_revert E fs file (canned_pattern c) (canned_replacement c n)
           (canned_label c)))
  /\ (forall c, c ∈ canned_variants)
  /\ length canned_variants = 5
  /\ NoDup (canned_label <$> canned_variants)
  /\ NoDup (canned_pattern <$> canned_variants).
Proof.
  split; [by intros []|].
  split; [intros []; unfold canned_variants; set_solver|].
  split; [reflexivity|].
  split; compute_done.
Qed.

(** C5, as the claim has it, fails: run on the same file, the canned recipes
    of the catalog carry five different labels, so no four variants cover
    them. *)
Lemma canned_variants_not_four :
  demo_label <$> canned_variants
  = [Some "modify_private_method"; Some "add_private_field"; Some "add_public_api";
     Some "modify_resource"; Some "add_resource"]
  /\ NoDup (demo_label <$> canned_variants)
  /\ ~ (exists four : list (option string),
          length four = 4 /\ forall c, demo_label c ∈ four).
Proof.
  assert (Hlabels : demo_label <$> canned_variants
                    = [Some "modify_private_method"; Some "add_private_field";
                       Some "add_public_api"; Some "modify_resource";
                       Some "add_resource"]) by (vm_compute; reflexivity).
  assert (Hnodup : NoDup (demo_label <$> canned_variants)).
  { rewrite Hlabels. compute_done. }
  split; [exact Hlabels|]. split; [exact Hnodup|].
  intros (four & Hlen & Hall).
  assert (Hsub : demo_label <$> canned_variants ⊆+ four).
  { apply NoDup_submseteq; [exact Hnodup|].
    intros l (c & -> & _)%list_elem_of_fmap. apply Hall. }
  apply submseteq_length in Hsub. rewrite length_fmap, Hlen in Hsub.
  cbn in Hsub. lia.
Qed.

(** ** Appending a line and taking it away *)

Lemma utf8_encode_one_byte (t : text) :
  one_byte_per_char t ->
  exists b, utf8_encode t = Some b /\ length b = length t.
Proof.
  induction 1 as [|c t Hc _ (b & Hb & Hlen)]; cbn.
  - by exists [].
  - unfold utf8_encode_char. apply N.ltb_lt in Hc. rewrite Hc, Hb.
    eexists. split; [reflexivity|]. cbn. by rewrite Hlen.
Qed.

Lemma bogus_marker_one_byte (u : N) : one_byte_per_char (bogus_marker u).
Proof.
  unfold bogus_marker, one_byte_per_char.
  apply Forall_app; split; [compute_done|].
  apply Forall_app; split; [apply uuid_text_one_byte | compute_done].
Qed.

(** Appending [t] and then cutting as many bytes as [t] has characters gives
    the file back when the two counts agree. *)
Lemma append_then_truncate (file : path) (t : text) (c b : bytes) (w : world) :
  files w !! file = Some (File c) ->
  utf8_encode t = Some b ->
  length b = length t ->
  (on_files (open_a file) >> on_files (write_end file t)
   >> on_files (seek_end_truncate file (length t))) w = Done w.
Proof.
  intros Hfile Henc Hlen. destruct w as [now cs]. cbn in Hfile.
  unfold and_then, on_files, open_a, write_end, seek_end_truncate. cbn.
  rewrite Hfile. cbn. rewrite Henc, Hfile. cbn. rewrite lookup_insert_eq.
  rewrite bool_decide_eq_true_2 by (rewrite length_app; lia).
  rewrite length_app, <- Hlen, Nat.add_sub, take_app_length.
  by rewrite insert_insert_eq, insert_id.
Qed.

Lemma run_modify_revert (file : path) (t : text) (w : world) :
  run_steps
    [Step "modify" (on_files (open_a file) >> on_files (write_end file t)) NoVerify;
     Step "revert" (on_files (seek_end_truncate file (length t))) NoVerify] w
  = (on_files (open_a file) >> on_files (write_end file t)
     >> on_files (seek_end_truncate file (length t))) w.
Proof.
  unfold run_steps, and_then. cbn.
  destruct (on_files (open_a file) w) as [w1|e w1]; [|done].
  destruct (on_files (write_end file t) w1) as [w2|e w2]; [|done].
  by destruct (on_files (seek_end_truncate file (length t)) w2).
Qed.

Section ModifyRevert.

Variable E : env.

Lemma modify_revert_restores (w : world) (file : path) (c : bytes)
    (text_ : option text) (st : cstate) :
  files w !! file = Some (File c) ->
  match text_ with Some t => one_byte_per_char t | None => True end ->
  exists g st' modify revert,
    modify_revert E (files w) file text_ st = OK (g, st')
    /\ steps g = [modify; revert]
    /\ verb modify = "modify" /\ verb revert = "revert"
    /\ run_steps (steps g) w = Done w.
Proof.
  intros Hfile Htext. unfold modify_revert.
  assert (Hexists : path_exists (files w) file = true).
  { unfold path_exists. apply bool_decide_eq_true. by rewrite Hfile. }
  assert (Hgen : exists t st', one_byte_per_char t /\
            match text_ with
            | None => u <- draw_uuid ;; ret (bogus_marker u)
            | Some t => ret t
            end st = OK (t, st')).
  { destruct text_ as [t|].
    - by exists t, st.
    - destruct (draw_uuid_total st) as (u & st1 & Hu).
      exists (bogus_marker u), st1. split; [apply bogus_marker_one_byte|].
      by rewrite (bind_ok _ _ _ _ _ Hu). }
  destruct Hgen as (t & st1 & Ht & Hdraw).
  rewrite (bind_ok _ _ _ _ _ Hdraw), Hexists.
  destruct (utf8_encode_one_byte t Ht) as (b & Hb & Hlen).
  do 4 eexists. split; [reflexivity|]. do 3 (split; [reflexivity|]).
  etrans; [apply run_modify_revert|].
  by apply (append_then_truncate file t c b w).
Qed.

End ModifyRevert.

(** C9. The revert step of [modify_revert] cuts as many bytes from the end
    of the file as the appended text has characters.  Modify followed by
    revert therefore gives the file back for every text of one byte per
    character, and there is a text outside ASCII (the single character
    U+00E9, two bytes long) after which one appended byte remains. *)
Theorem revert_counts_characters :
  (forall (E : env) (w : world) (file : path) (c : bytes) (t : text) (st : cstate),
      files w !! file = Some (File c) ->
      one_byte_per_char t ->
      exists g modify revert,
        modify_revert E (files w) file (Some t) st = OK (g, st)
        /\ steps g = [modify; revert]
        /\ apply_change revert = on_files (seek_end_truncate file (length t))
        /\ run_steps (steps g) w = Done w)
  /\ (exists (E : env) (w w' : world) (file : path) (c : bytes) (t : text)
             (st : cstate) (g : CujGroup),
         files w !! file = Some (File c)
         /\ ~ one_byte_per_char t
         /\ modify_revert E (files w) file (Some t) st = OK (g, st)
         /\ run_steps (steps g) w = Done w'
         /\ files w' !! file = Some (File (c ++ [Byte.xc3]))
         /\ files w' !! file <> files w !! file).
Proof.
  split.
  - intros E w file c t st Hfile Ht.
    destruct (modify_revert_restores E w file c (Some t) st Hfile Ht)
      as (g & st' & m & r & Hg & Hsteps & _ & _ & Hrun).
    exists g, m, r.
    unfold modify_revert in Hg |- *.
    rewrite (bind_ok _ _ st t st eq_refl) in Hg |- *.
    destruct (negb (path_exists (files w) file)); [discriminate|].
    injection Hg as <- <-. cbn in Hsteps. injection Hsteps as <- <-.
    split; [reflexivity|]. split; [reflexivity|]. split; [reflexivity|].
    exact Hrun.
  - exists demo_env, demo_world. eexists. exists ["a.txt"; "src"], hello, e_acute, demo_state.
    eexists.
    split; [vm_compute; reflexivity|].
    split. { intros H. apply Forall_inv in H. vm_compute in H. discriminate. }
    unfold modify_revert.
    replace (path_exists (files demo_world) ["a.txt"; "src"]) with true
      by (vm_compute; reflexivity).
    split; [reflexivity|].
    split; [vm_compute; reflexivity|].
    split; [vm_compute; reflexivity|].
    vm_compute. discriminate.
Qed.

Lemma revert_counts_characters_witness :
  exists g modify revert,
    modify_revert demo_env (files demo_world) ["a.txt"; "src"]
      (Some (text_of_string "//BOGUS")) demo_state = OK (g, demo_state)
    /\ steps g = [modify; revert]
    /\ apply_change revert
       = on_files (seek_end_truncate ["a.txt"; "src"]
                     (length (text_of_string "//BOGUS")))
    /\ run_steps (steps g) demo_world = Done demo_world.
Proof.
  apply (proj1 revert_counts_characters demo_env demo_world ["a.txt"; "src"] hello).
  - vm_compute. reflexivity.
  - compute_done.
Defined.

(** C1 at a text outside ASCII: asked to append the single character U+00E9
    to a file holding the line [hello], modify and then revert leave the
    file one byte longer than it was. *)
Theorem modify_revert_keeps_a_byte_of_non_ascii_text :
  exists g st' w',
    modify_revert demo_env demo_fs ["a.txt"; "src"] (Some e_acute) demo_state
      = OK (g, st')
    /\ (verb <$> steps g) = ["modify"; "revert"]
    /\ run_steps (steps g) demo_world = Done w'
    /\ demo_fs !! ["a.txt"; "src"] = Some (File hello)
    /\ files w' !! ["a.txt"; "src"] = Some (File (hello ++ [Byte.xc3])).
Proof.
  unfold modify_revert.
  replace (path_exists demo_fs ["a.txt"; "src"]) with true
    by (vm_compute; reflexivity).
  do 3 eexists.
  split; [reflexivity|]. split; [reflexivity|].
  split; [vm_compute; reflexivity|].
  split; vm_compute; reflexivity.
Qed.

(** ** Confirmations of the catalog *)

Section Catalog.

Variable E : env.
Variable fs : filesystem.

Lemma confirmed_fails (r : path) (pats : list string) (e : exn) {A}
    (k : unit -> build A) (st : cstate) :
  confirm E fs r pats = Some e -> bind (confirmed E fs r pats) k st = Err e.
Proof. intros H. unfold bind, confirmed. by rewrite H. Qed.

Lemma confirmed_passes (r : path) (pats : list string) {A}
    (k : unit -> build A) (st : cstate) :
  confirm E fs r pats = None -> bind (confirmed E fs r pats) k st = k tt st.
Proof. intros H. unfold bind, confirmed. by rewrite H. Qed.

Lemma unkept_confirmation_first (e : exn) (st : cstate) :
  confirm E fs (unkept_confirmation E).1 (unkept_confirmation E).2 = Some e ->
  _unkept_build_cujs E fs st = Err e.
Proof. intros H. unfold _unkept_build_cujs. by apply confirmed_fails. Qed.

Lemma kept_confirmation_first (e : exn) (st : cstate) :
  confirm E fs (kept_confirmation E).1 (kept_confirmation E).2 = Some e ->
  _kept_build_cujs E fs st = Err e.
Proof. intros H. unfold _kept_build_cujs. by apply confirmed_fails. Qed.

Lemma top_confirmations_first (e : exn) (st : cstate) :
  first_failure E fs (top_confirmations E) = Some e ->
  get_cujgroups E fs st = Err e.
Proof.
  unfold top_confirmations, get_cujgroups. cbn [first_failure fst snd].
  repeat
    lazymatch goal with
    | |- context [match confirm E fs ?r ?p with _ => _ end] =>
        let H := fresh "Hc" in
        destruct (confirm E fs r p) as [e'|] eqn:H;
        [ intros [= ->]; by apply confirmed_fails
        | rewrite (confirmed_passes r p _ _ H) ]
    end.
  discriminate.
Qed.

(** One bind of a construction that is known to fail later, or fails here. *)
Ltac pass_bind :=
  lazymatch goal with
  | |- exists e, bind ?m ?f ?st = Err e =>
      let H := fresh "Hm" in
      destruct (m st) as [[? ?]|?] eqn:H;
      [ rewrite (bind_ok _ _ _ _ _ H); cbv beta
      | rewrite (bind_err _ _ _ _ H); eauto ]
  end.

(** C8. When a structural confirmation of the catalog fails,
    [get_cujgroups] ends in an exception and returns no list of groups.
    The confirmations of [get_cujgroups] itself run before any of its groups
    is built, so the exception is that of the first of them that fails, and
    [_unkept_build_cujs] and [_kept_build_cujs] each end in the exception of
    their confirmation before building a group. *)
Theorem failed_confirmation_aborts_catalog (st : cstate) :
  Exists (fun c => confirm E fs c.1 c.2 <> None) (catalog_confirmations E) ->
  (exists e, get_cujgroups E fs st = Err e)
  /\ built (get_cujgroups E fs st) = None
  /\ (forall e, first_failure E fs (top_confirmations E) = Some e ->
                get_cujgroups E fs st = Err e)
  /\ (forall e st',
         confirm E fs (unkept_confirmation E).1 (unkept_confirmation E).2 = Some e ->
         _unkept_build_cujs E fs st' = Err e)
  /\ (forall e st',
         confirm E fs (kept_confirmation E).1 (kept_confirmation E).2 = Some e ->
         _kept_build_cujs E fs st' = Err e).
Proof.
  intros Hfail.
  assert (Herr : exists e, get_cujgroups E fs st = Err e).
  { unfold catalog_confirmations in Hfail. apply Exists_app in Hfail as [Htop|Hsub].
    - destruct (first_failure E fs (top_confirmations E)) as [e|] eqn:Hfirst.
      + exists e. by apply top_confirmations_first.
      + exfalso. unfold top_confirmations in *. cbn [first_failure fst snd] in Hfirst.
        repeat
          lazymatch type of Hfirst with
          | context [match confirm E fs ?r ?p with _ => _ end] =>
              let H := fresh "Hc" in
              destruct (confirm E fs r p) as [e'|] eqn:H; [discriminate|]
          end.
        repeat (apply Exists_cons in Htop as [Hne|Htop]; [cbn in Hne; congruence|]).
        by apply Exists_nil in Htop.
    - assert (Hone :
        (exists e, forall st', _unkept_build_cujs E fs st' = Err e)
        \/ (exists e, forall st', _kept_build_cujs E fs st' = Err e)).
      { apply Exists_cons in Hsub as [Hne|Hsub].
        - left. destruct (confirm E fs (unkept_confirmation E).1
                            (unkept_confirmation E).2) as [e|] eqn:Hc; [|done].
          exists e. intros st'. by apply unkept_confirmation_first.
        - apply Exists_cons in Hsub as [Hne|Hsub]; [|by apply Exists_nil in Hsub].
          right. destruct (confirm E fs (kept_confirmation E).1
                             (kept_confirmation E).2) as [e|] eqn:Hc; [|done].
          exists e. intros st'. by apply kept_confirmation_first. }
      unfold get_cujgroups. cbv zeta.
      destruct Hone as [[e Hunkept]|[e Hkept]].
      + repeat first
          [ rewrite (bind_err _ _ _ _ (Hunkept _)); by eauto
          | pass_bind ].
      + repeat first
          [ rewrite (bind_err _ _ _ _ (Hkept _)); by eauto
          | pass_bind ]. }
  split; [exact Herr|].
  split; [destruct Herr as [e ->]; reflexivity|].
  split; [intros e; apply top_confirmations_first|].
  split; [intros e st'; apply unkept_confirmation_first
         | intros e st'; apply kept_confirmation_first].
Qed.

End Catalog.

Lemma failed_confirmation_aborts_catalog_witness :
  (exists e, get_cujgroups drifted_env demo_fs demo_state = Err e)
  /\ built (get_cujgroups drifted_env demo_fs demo_state) = None.
Proof.
  pose proof (failed_confirmation_aborts_catalog drifted_env demo_fs demo_state) as H.
  assert (Hfail : Exists (fun c => confirm drifted_env demo_fs c.1 c.2 <> None)
                    (catalog_confirmations drifted_env)).
  { apply Exists_cons_hd. vm_compute. discriminate. }
  destruct (H Hfail) as (Herr & Hnone & _). split; [exact Herr | exact Hnone].
Defined.

(** ** Creating a file and deleting what was created *)

Lemma dir_error_none (fs : filesystem) (q : path) :
  dir_error fs q = None <-> fs !! q = Some Dir.
Proof.
  destruct q as [|n q]; cbn.
  - destruct (fs !! []) as [[c|]|]; split; congruence.
  - destruct (fs !! (n :: q)) as [[c|]|]; [split; congruence | done |].
    destruct (dir_error fs q); split; congruence.
Qed.


Lemma os_mkdir_ok (p : path) (fs fs' : filesystem) :
  os_mkdir p fs = OK fs' ->
  exists n q, p = n :: q /\ fs !! p = None /\ fs !! q = Some Dir
              /\ fs' = <[p := Dir]> fs.
Proof.
  unfold os_mkdir. destruct (fs !! p) as [x|] eqn:Hp; [discriminate|].
  destruct p as [|n q]; [discriminate|]. cbn.
  destruct (dir_error fs q) as [e|] eqn:Hq; [discriminate|].
  intros [= <-]. exists n, q. by rewrite <- dir_error_none.
Qed.

Lemma os_mkdir_exists (p : path) (fs : filesystem) (x : node) :
  fs !! p = Some x -> os_mkdir p fs = Err (FileExistsError p).
Proof. unfold os_mkdir. by intros ->. Qed.

Lemma wf_ancestor (fs : filesystem) (d q : path) :
  wf_fs fs -> is_Some (fs !! q) -> d `suffix_of` q -> d <> q -> fs !! d = Some Dir.
Proof.
  intros [_ Hwf] Hq [k ->]. revert Hq.
  induction k as [|n k IH]; intros Hq Hne; [done|].
  cbn in Hq. pose proof (Hwf n (k ++ d) Hq) as Hdir.
  destruct k as [|m k]; [exact Hdir|].
  apply IH; [by rewrite Hdir|]. intros Heq.
  apply (f_equal length) in Heq. rewrite length_app in Heq. cbn in Heq. lia.
Qed.

Lemma wf_missing_below (fs : filesystem) (d q : path) :
  wf_fs fs -> fs !! d = None -> d `suffix_of` q -> fs !! q = None.
Proof.
  intros Hwf Hd Hsuf. destruct (fs !! q) as [x|] eqn:Hq; [|done].
  destruct (decide (d = q)) as [->|Hne]; [congruence|].
  rewrite (wf_ancestor fs d q Hwf) in Hd; [discriminate|by rewrite Hq|done|done].
Qed.

Lemma wf_insert (fs : filesystem) (n : string) (q : path) (x : node) :
  wf_fs fs -> fs !! q = Some Dir -> fs !! (n :: q) = None ->
  wf_fs (<[n :: q := x]> fs).
Proof.
  intros Hwf Hq Hnew. pose proof Hwf as [Hroot Hclosed]. split.
  - by rewrite lookup_insert_ne.
  - intros m p Hmp. destruct (decide (n :: q = m :: p)) as [[= <- <-]|Hne].
    + rewrite lookup_insert_ne; [done|].
      intros Heq. apply (f_equal length) in Heq. cbn in Heq. lia.
    + rewrite lookup_insert_ne in Hmp by done.
      destruct (decide (n :: q = p)) as [<-|Hne'].
      * rewrite (wf_missing_below fs (n :: q) (m :: n :: q) Hwf Hnew) in Hmp;
          [by destruct Hmp | by apply suffix_cons_r].
      * rewrite lookup_insert_ne by done. by apply (Hclosed m).
Qed.

Lemma suffix_cons_longer (n : string) (p : path) : ~ (n :: p) `suffix_of` p.
Proof. intros H%suffix_length. cbn in H. lia. Qed.

(** What a successful [mkdir(parents=True, exist_ok=True)] leaves: the
    directory, and new directories only where an ancestor was missing. *)
Lemma mkdir_parents_ok (p : path) (fs fs' : filesystem) :
  wf_fs fs ->
  mkdir_parents p fs = OK fs' ->
  wf_fs fs' /\ fs' !! p = Some Dir
  /\ forall q, fs' !! q = fs !! q
               \/ (q `suffix_of` p /\ fs !! q = None /\ fs' !! q = Some Dir).
Proof.
  revert fs fs'. induction p as [|n p IH]; intros fs fs' Hwf.
  - cbn [mkdir_parents]. destruct Hwf as [Hroot Hclosed]. unfold root in Hroot.
    rewrite (os_mkdir_exists [] fs Dir Hroot). unfold is_dir. rewrite Hroot.
    intros [= <-]. split; [done|]. split; [done|]. intros q. by left.
  - cbn [mkdir_parents].
    destruct (os_mkdir (n :: p) fs) as [fs1|e] eqn:Hmk.
    + intros [= <-].
      apply os_mkdir_ok in Hmk as (n' & q' & [= <- <-] & Hnew & Hpar & ->).
      split; [by apply wf_insert|]. split; [by rewrite lookup_insert_eq|].
      intros q. destruct (decide (n :: p = q)) as [<-|Hne].
      * right. by rewrite lookup_insert_eq.
      * left. by rewrite lookup_insert_ne.
    + assert (Hstay : (if is_dir fs (n :: p) then OK fs else Err e) = OK fs' ->
                wf_fs fs' /\ fs' !! (n :: p) = Some Dir
                /\ forall q, fs' !! q = fs !! q
                   \/ (q `suffix_of` n :: p /\ fs !! q = None /\ fs' !! q = Some Dir)).
      { unfold is_dir. destruct (fs !! (n :: p)) as [[c|]|] eqn:Hp; try discriminate.
        intros [= <-]. split; [done|]. split; [done|]. intros q. by left. }
      destruct e; try exact Hstay. clear Hstay.
      destruct (mkdir_parents p fs) as [fs1|e1] eqn:Hrec; [|discriminate].
      destruct (IH fs fs1 Hwf Hrec) as (Hwf1 & Hp1 & Hdiff1).
      assert (Hn : fs !! (n :: p) = None).
      { unfold os_mkdir in Hmk. by destruct (fs !! (n :: p)). }
      assert (Hn1 : fs1 !! (n :: p) = None).
      { destruct (Hdiff1 (n :: p)) as [->|[Hsuf _]]; [done|].
        by apply suffix_cons_longer in Hsuf. }
      unfold mkdir_exist_ok, os_mkdir. rewrite Hn1. cbn [parent_error].
      rewrite (proj2 (dir_error_none fs1 p) Hp1).
      intros [= <-].
      split; [by apply wf_insert|]. split; [by rewrite lookup_insert_eq|].
      intros q. destruct (decide (n :: p = q)) as [<-|Hne].
      * right. by rewrite lookup_insert_eq.
      * rewrite lookup_insert_ne by done.
        destruct (Hdiff1 q) as [Heq|(Hsuf & Hq & Hq1)]; [by left|].
        right. split; [by apply suffix_cons_r|done].
Qed.

Lemma elem_of_parents (n : string) (p q : path) :
  q ∈ parents (n :: p) <-> q `suffix_of` p.
Proof.
  revert n. induction p as [|m p IH]; intros n; cbn [parents].
  - rewrite list_elem_of_singleton. split; [by intros -> | apply suffix_nil_inv].
  - rewrite elem_of_cons. cbn [parents] in IH. rewrite (IH m). split.
    + intros [->|Hsuf]; [done | by apply suffix_cons_r].
    + intros [->|Hsuf]%suffix_cons_cases; auto.
Qed.

Lemma parents_suffix (p q : path) : q ∈ parents p -> q `suffix_of` p /\ q <> p.
Proof.
  destruct p as [|n p]; [by intros ?%elem_of_nil|].
  intros Hq%elem_of_parents. split; [by apply suffix_cons_r|].
  intros ->. by apply suffix_cons_longer in Hq.
Qed.

(** The last missing entry of [parents] is the one nearest to the root:
    every missing ancestor lies at it or below it. *)
Lemma last_missing_is_shallowest (fs : filesystem) (file d : path) :
  last (filter (fun f => ~ path_exists fs f) (parents file)) = Some d ->
  d ∈ parents file /\ path_exists fs d = false
  /\ forall d', d' ∈ parents file -> path_exists fs d' = false -> d `suffix_of` d'.
Proof.
  induction file as [|n q IH]; [discriminate|].
  cbn [parents]. rewrite filter_cons. intros Hlast.
  assert (Hcase : last (filter (fun f => ~ path_exists fs f) (parents q)) = Some d
                  \/ (filter (fun f => ~ path_exists fs f) (parents q) = []
                      /\ d = q /\ path_exists fs q = false)).
  { destruct (decide (~ path_exists fs q)) as [Hq|Hq].
    - rewrite last_cons in Hlast.
      destruct (last (filter _ (parents q))) as [y|] eqn:Hl.
      + left. congruence.
      + right. apply last_None in Hl. injection Hlast as <-.
        split; [done|]. split; [done|]. by apply Is_true_false.
    - by left. }
  destruct Hcase as [Hrec|(Hnone & -> & Hq)].
  - destruct (IH Hrec) as (Hin & Hd & Hall).
    split; [by right|]. split; [done|].
    intros d' [->|Hd']%elem_of_cons Hmiss; [|by apply Hall].
    by apply parents_suffix in Hin as [Hsuf _].
  - split; [by left|]. split; [done|].
    intros d' [->|Hd']%elem_of_cons Hmiss; [done|].
    exfalso. apply (filter_nil_not_elem_of _ _ d' Hnone); [|done].
    by apply Is_true_false.
Qed.


Lemma some_missing_parent (fs : filesystem) (file d : path) :
  d ∈ parents file -> path_exists fs d = false ->
  is_Some (last (filter (fun f => ~ path_exists fs f) (parents file))).
Proof.
  intros Hd Hmiss. apply last_is_Some. intros Hnil.
  apply (filter_nil_not_elem_of _ _ d Hnil); [|done]. by apply Is_true_false.
Qed.

Lemma path_exists_false (fs : filesystem) (p : path) :
  path_exists fs p = false <-> fs !! p = None.
Proof.
  unfold path_exists. rewrite bool_decide_eq_false, <- eq_None_not_Some. done.
Qed.

Lemma path_exists_true (fs : filesystem) (p : path) :
  path_exists fs p = true <-> is_Some (fs !! p).
Proof. unfold path_exists. by rewrite bool_decide_eq_true. Qed.

(** What the body of [create] leaves when it returns: the directories that
    [mkdir] made and the new file. *)
Lemma create_body_done (file : path) (t : text) (fs : filesystem)
    (cs : gmap nat text) (w1 : world) :
  wf_fs fs ->
  fs !! file = None ->
  (on_files (mkdir_parents (parent file)) >> on_files (touch file)
   >> on_files (open_w file) >> on_files (write_end file t)) (World fs cs) = Done w1 ->
  exists n p fs1 b,
    file = n :: p /\ mkdir_parents p fs = OK fs1 /\ fs1 !! file = None
    /\ w1 = World (<[file := File b]> fs1) cs.
Proof.
  intros Hwf Hfile. destruct file as [|n p].
  { destruct Hwf as [Hroot _]. unfold root in Hroot. congruence. }
  unfold and_then, on_files. cbn [parent tail files cells].
  destruct (mkdir_parents p fs) as [fs1|e] eqn:Hmk; [|discriminate].
  destruct (mkdir_parents_ok p fs fs1 Hwf Hmk) as (Hwf1 & Hp1 & Hdiff).
  assert (Hfile1 : fs1 !! (n :: p) = None).
  { destruct (Hdiff (n :: p)) as [->|[Hsuf _]]; [done|].
    by apply suffix_cons_longer in Hsuf. }
  cbn [files cells]. unfold touch. rewrite Hfile1. cbn [parent_error].
  rewrite (proj2 (dir_error_none fs1 p) Hp1). cbn [files cells].
  unfold open_w. rewrite lookup_insert_eq. cbn [files cells].
  unfold write_end. destruct (utf8_encode t) as [b|]; [|discriminate].
  rewrite lookup_insert_eq. cbn [files cells app].
  rewrite !insert_insert_eq. intros [= <-]. by exists n, p, fs1, b.
Qed.

Section CreateDelete.

Variable E : env.
Variable fs : filesystem.


End CreateDelete.

Lemma is_dir_true (fs : filesystem) (p : path) :
  is_dir fs p = true <-> fs !! p = Some Dir.
Proof. unfold is_dir. destruct (fs !! p) as [[c|]|]; split; congruence. Qed.

Lemma wf_fsb_sound (fs : filesystem) : wf_fsb fs = true -> wf_fs fs.
Proof.
  unfold wf_fsb. intros [Hroot Hall]%andb_prop. split.
  - by apply is_dir_true.
  - apply bool_decide_eq_true in Hall. intros n p [x Hx].
    apply is_dir_true, Is_true_true. exact (Hall (n :: p) x Hx).
Qed.


(** * Further properties of the recipes and of the catalog *)

(** ** Moving a file away and back *)

Lemma parent_error_none (fs : filesystem) (p : path) :
  fs !! parent p = Some Dir -> parent_error fs p = None.
Proof.
  destruct p as [|n q]; [done|]. cbn [parent tail parent_error].
  intros Hq. by rewrite (proj2 (dir_error_none fs q) Hq).
Qed.

Lemma rename_file_fresh (dev : path -> N) (from to : path) (c : bytes)
    (fs : filesystem) :
  fs !! from = Some (File c) ->
  fs !! to = None ->
  fs !! parent from = Some Dir ->
  fs !! parent to = Some Dir ->
  dev from = dev to ->
  rename dev from to fs = OK (<[to := File c]> (delete from fs)).
Proof.
  intros Hfrom Hto Hpf Hpt Hdev. unfold rename.
  rewrite (parent_error_none fs from Hpf), (parent_error_none fs to Hpt).
  by rewrite Hdev, N.eqb_refl, Hfrom, Hto.
Qed.

Lemma rename_missing (dev : path -> N) (from to : path) (fs : filesystem) :
  fs !! from = None ->
  fs !! parent from = Some Dir ->
  fs !! parent to = Some Dir ->
  dev from = dev to ->
  rename dev from to fs = Err (FileNotFoundError from).
Proof.
  intros Hfrom Hpf Hpt Hdev. unfold rename.
  rewrite (parent_error_none fs from Hpf), (parent_error_none fs to Hpt).
  by rewrite Hdev, N.eqb_refl, Hfrom.
Qed.

Lemma rename_cross_device (dev : path -> N) (from to : path) (fs : filesystem) :
  fs !! parent from = Some Dir ->
  fs !! parent to = Some Dir ->
  dev from <> dev to ->
  rename dev from to fs = Err (OSError to).
Proof.
  intros Hpf Hpt Hdev. unfold rename.
  rewrite (parent_error_none fs from Hpf), (parent_error_none fs to Hpt).
  by rewrite (proj2 (N.eqb_neq _ _) Hdev).
Qed.

Section DeleteRestoreRoundTrip.

Variable E : env.

(** X1. For a regular file in a tree-shaped filesystem whose temporary
    directory exists and does not yet hold the copy: when the temporary
    directory is on the mounted filesystem of the file, the delete step of
    [delete_restore] leaves nothing at the original path and the content at
    the copy, a second delete raises FileNotFoundError and changes nothing,
    and the restore step gives back the world as it was; when it is on
    another mounted filesystem, the delete step raises OSError and changes
    nothing. *)
Theorem delete_then_restore (original : path) (ws : InWorkspace) (st : cstate)
    (w : world) (c : bytes) :
  let copied := joinpath (tempdir E) (backup_name original (uuid4 (rand st)).1) in
  is_relative_to (tempdir E) (top_dir E) = false ->
  is_relative_to (tempdir E) (out_dir E) = false ->
  no_slash (name original) = true ->
  wf_fs (files w) ->
  files w !! original = Some (File c) ->
  files w !! tempdir E = Some Dir ->
  files w !! copied = None ->
  exists g st' delete restore,
    delete_restore E original ws st = OK (g, st')
    /\ steps g = [delete; restore]
    /\ (device E original = device E copied ->
        exists w1,
          apply_change delete w = Done w1
          /\ files w1 !! original = None
          /\ files w1 !! copied = Some (File c)
          /\ apply_change delete w1 = Raised (FileNotFoundError original) w1
          /\ apply_change restore w1 = Done w)
    /\ (device E original <> device E copied ->
        apply_change delete w = Raised (OSError copied) w).
Proof.
  intros copied Hrt Hro Hname Hwf Hfile Htmp Hfresh.
  unfold delete_restore. rewrite Hrt, Hro.
  unfold bind, draw_uuid. subst copied.
  destruct (uuid4 (rand st)) as [u r]. cbn [fst] in *.
  fold (backup_name original u).
  rewrite (backup_name_component original u (tempdir E) Hname) in *.
  set (copied := backup_name original u :: tempdir E) in *.
  assert (Hne : copied <> original) by congruence.
  assert (Horig : exists n p, original = n :: p /\ files w !! p = Some Dir).
  { destruct original as [|n p].
    - destruct Hwf as [Hroot _]. unfold root in Hroot. congruence.
    - exists n, p. split; [done|]. destruct Hwf as [_ Hclosed].
      apply (Hclosed n). by rewrite Hfile. }
  destruct Horig as (n & p & -> & Hpar).
  destruct w as [fs cs]. cbn [files] in *.
  assert (Hpc : fs !! parent copied = Some Dir) by done.
  assert (Hpo : fs !! parent (n :: p) = Some Dir) by done.
  do 4 eexists.
  split; [reflexivity|]. split; [reflexivity|]. cbn [apply_change].
  unfold on_files. cbn [files cells]. split.
  - intros Hdev. eexists.
    rewrite (rename_file_fresh (device E) (n :: p) copied c fs) by done.
    split; [reflexivity|]. cbn [files cells].
    assert (Hpo1 : <[copied := File c]> (delete (n :: p) fs) !! parent (n :: p)
                   = Some Dir).
    { cbn [parent tail].
      rewrite lookup_insert_ne by (intros Heq; rewrite Heq in Hfresh; congruence).
      rewrite lookup_delete_ne; [done|].
      intros Heq. apply (f_equal length) in Heq. cbn in Heq. lia. }
    assert (Hpc1 : <[copied := File c]> (delete (n :: p) fs) !! parent copied
                   = Some Dir).
    { cbn [parent tail].
      rewrite lookup_insert_ne
        by (intros Heq; apply (f_equal length) in Heq; cbn in Heq; lia).
      rewrite lookup_delete_ne; [done|]. intros Heq. congruence. }
    split; [by rewrite lookup_insert_ne, lookup_delete_eq|].
    split; [by rewrite lookup_insert_eq|].
    split.
    { rewrite (rename_missing (device E) (n :: p) copied); [done| |done|done|done].
      by rewrite lookup_insert_ne, lookup_delete_eq. }
    rewrite (rename_file_fresh (device E) copied (n :: p) c);
      [|by rewrite lookup_insert_eq
       |by rewrite lookup_insert_ne, lookup_delete_eq
       |done|done|done].
    f_equal. f_equal. rewrite delete_insert_eq.
    rewrite (delete_id (delete (n :: p) fs)) by (by rewrite lookup_delete_ne).
    by rewrite insert_delete_id.
  - intros Hdev.
    by rewrite (rename_cross_device (device E) (n :: p) copied fs).
Qed.

End DeleteRestoreRoundTrip.

Example delete_restore_across_devices :
  match delete_restore tmpfs_env ["a.txt"; "src"] SYMLINK demo_state with
  | OK (g, _) =>
      run_steps (steps g) demo_world
      = Raised (OSError ["a.txt-00000000-0000-0000-0000-000000000000.bak"; "tmp"])
          demo_world
  | Err _ => False
  end.
Proof. vm_compute. reflexivity. Qed.

(** ** The clean step *)

(** X2. The clean step of the catalog refuses to run, and removes nothing,
    while the log directory lies in the source tree; otherwise it removes
    the output directory with everything below it and nothing else, and
    does nothing when there is no output directory. *)
Theorem clean_removes_only_the_output_tree (E : env) (w : world) :
  (is_relative_to (log_dir E) (top_dir E) = true ->
   exists msg, clean E w = Raised (AssertionError msg) w)
  /\ (is_relative_to (log_dir E) (top_dir E) = false ->
      files w !! out_dir E = None -> clean E w = Done w)
  /\ (is_relative_to (log_dir E) (top_dir E) = false ->
      files w !! out_dir E = Some Dir ->
      exists w',
        clean E w = Done w'
        /\ cells w' = cells w
        /\ forall q, files w' !! q
                     = if bool_decide (out_dir E `suffix_of` q) then None
                       else files w !! q).
Proof.
  unfold clean. split; [|split].
  - intros ->. eauto.
  - intros -> Hout.
    by rewrite (proj2 (path_exists_false (files w) (out_dir E)) Hout).
  - intros -> Hout.
    rewrite (proj2 (path_exists_true (files w) (out_dir E))) by (by rewrite Hout).
    unfold on_files, rmtree. rewrite Hout. eexists. split; [reflexivity|].
    split; [reflexivity|]. cbn [files]. intros q.
    destruct (bool_decide_reflect (out_dir E `suffix_of` q)) as [Hq|Hq].
    + apply map_lookup_filter_None_2. right. intros x _ Hnot. by apply Hnot.
    + destruct (files w !! q) as [x|] eqn:Hx.
      * by apply map_lookup_filter_Some_2.
      * apply map_lookup_filter_None_2. by left.
Qed.

(** ** Steps applied out of turn *)

Lemma run_steps_app (l1 l2 : list CujStep) (w : world) :
  run_steps (l1 ++ l2) w
  = match run_steps l1 w with
    | Done w1 => run_steps l2 w1
    | Raised e w1 => Raised e w1
    end.
Proof.
  revert w. induction l1 as [|s l1 IH]; intros w; [done|].
  cbn [app run_steps]. unfold and_then.
  destruct (apply_change s w) as [w1|e w1]; [apply IH | done].
Qed.






Section OutOfTurn.

Variable E : env.
Variable fs : filesystem.


End OutOfTurn.

Example delete_below_a_regular_file :
  match create_delete demo_env demo_fs ["new.txt"; "a.txt"; "src"] SYMLINK None
          demo_state with
  | OK (g, _) =>
      match steps g with
      | [_; delete] =>
          apply_change delete demo_world
          = Raised (NotADirectoryError ["new.txt"; "a.txt"; "src"]) demo_world
      | _ => False
      end
  | Err _ => False
  end.
Proof. vm_compute. reflexivity. Qed.

(** X4. The revert step of [modify_revert] is not guarded against a second
    application: after modify and revert, one more revert cuts the last
    [len(text)] bytes off the original content, or raises OSError and
    changes nothing when the file is shorter than the text. *)
Theorem second_revert_cuts_the_original (E : env) (w : world) (file : path)
    (c : bytes) (t : text) (st : cstate) :
  files w !! file = Some (File c) ->
  one_byte_per_char t ->
  exists g modify revert,
    modify_revert E (files w) file (Some t) st = OK (g, st)
    /\ steps g = [modify; revert]
    /\ (length t <= length c ->
        run_steps [modify; revert; revert] w
        = Done (World (<[file := File (take (length c - length t) c)]> (files w))
                  (cells w)))
    /\ (length c < length t ->
        run_steps [modify; revert; revert] w = Raised (OSError file) w).
Proof.
  intros Hfile Ht. unfold modify_revert.
  assert (Hexists : path_exists (files w) file = true).
  { apply path_exists_true. by rewrite Hfile. }
  rewrite (bind_ok _ _ st t st eq_refl), Hexists.
  do 3 eexists. split; [reflexivity|]. split; [reflexivity|].
  destruct (utf8_encode_one_byte t Ht) as (b & Hb & Hlen).
  pose proof (append_then_truncate file t c b w Hfile Hb Hlen) as Hrun.
  rewrite <- run_modify_revert in Hrun.
  split; intros Hcmp.
  - etrans; [exact (run_steps_app [_; _] [_] w)|]. rewrite Hrun.
    cbn [run_steps apply_change]. unfold and_then, on_files, seek_end_truncate.
    rewrite Hfile. by rewrite bool_decide_eq_true_2 by lia.
  - etrans; [exact (run_steps_app [_; _] [_] w)|]. rewrite Hrun.
    cbn [run_steps apply_change]. unfold and_then, on_files, seek_end_truncate.
    rewrite Hfile. by rewrite bool_decide_eq_false_2 by lia.
Qed.

(** ** What the create step makes *)


Section CreateStep.

Variable E : env.
Variable fs : filesystem.


End CreateStep.

(** ** Build files: what is written is what is looked for *)

Lemma add_line_done (file : path) (t : text) (c b : bytes) (w : world) :
  files w !! file = Some (File c) ->
  utf8_encode t = Some b ->
  (on_files (open_a file) >> on_files (write_end file t)) w
  = Done (World (<[file := File (c ++ b)]> (files w)) (cells w)).
Proof.
  intros Hfile Hb. unfold and_then, on_files, open_a, write_end.
  rewrite Hfile. cbn [files cells]. by rewrite Hb, Hfile.
Qed.

Lemma truncate_done (file : path) (t : text) (c b : bytes) (w : world) :
  files w !! file = Some (File c) ->
  length b = length t ->
  on_files (seek_end_truncate file (length t))
    (World (<[file := File (c ++ b)]> (files w)) (cells w)) = Done w.
Proof.
  intros Hfile Hlen. destruct w as [now cs]. cbn [files cells] in *.
  unfold on_files, seek_end_truncate. cbn [files cells].
  rewrite lookup_insert_eq.
  rewrite bool_decide_eq_true_2 by (rewrite length_app; lia).
  rewrite length_app, <- Hlen, Nat.add_sub, take_app_length.
  by rewrite insert_insert_eq, insert_id.
Qed.

Lemma create_body_content (file : path) (t : text) (w w1 : world) :
  (on_files (mkdir_parents (parent file)) >> on_files (touch file)
   >> on_files (open_w file) >> on_files (write_end file t)) w = Done w1 ->
  exists b, utf8_encode t = Some b /\ files w1 !! file = Some (File b).
Proof.
  unfold and_then, on_files.
  destruct (mkdir_parents (parent file) (files w)) as [fs1|e]; [|discriminate].
  cbn [files cells].
  destruct (touch file fs1) as [fs2|e]; [|discriminate]. cbn [files cells].
  assert (Hopen : forall fs3, open_w file fs2 = OK fs3 -> fs3 !! file = Some (File [])).
  { unfold open_w. intros fs3.
    destruct (fs2 !! file) as [[c|]|]; [| discriminate |].
    - intros [= <-]. by rewrite lookup_insert_eq.
    - destruct (parent_error fs2 file); [discriminate|].
      intros [= <-]. by rewrite lookup_insert_eq. }
  destruct (open_w file fs2) as [fs3|e]; [|discriminate]. cbn [files cells].
  specialize (Hopen fs3 eq_refl). unfold write_end.
  destruct (utf8_encode t) as [b|]; [|discriminate]. rewrite Hopen.
  intros [= <-]. exists b. cbn [files]. by rewrite lookup_insert_eq.
Qed.

Lemma draw_uuid_eq (st : cstate) :
  draw_uuid st
  = OK ((uuid4 (rand st)).1, CState (uuid4 (rand st)).2 (next_cell st)).
Proof. unfold draw_uuid. by destruct (uuid4 (rand st)). Qed.

Lemma modify_revert_given_text (E : env) (fs : filesystem) (file : path)
    (t : text) (st : cstate) :
  path_exists fs file = true ->
  modify_revert E fs file (Some t) st
  = OK (Group (de_src E file)
          [Step "modify" (on_files (open_a file) >> on_files (write_end file t))
             NoVerify;
           Step "revert" (on_files (seek_end_truncate file (length t))) NoVerify],
        st).
Proof.
  intros Hexists. unfold modify_revert.
  by rewrite (bind_ok _ _ st t st eq_refl), Hexists.
Qed.

Lemma create_delete_some (E : env) (fs : filesystem) (file : path)
    (ws : InWorkspace) (t : text) (st : cstate) :
  create_delete E fs file ws (Some t) st
  = OK (Group (de_src E file)
          [Step "create"
             (fun w =>
                if path_exists (files w) file
                then Raised (RuntimeError
                               ("File " +:+ str_path file
                                +:+ " already exists. Interrupted an earlier run?"
                                +:+ newline
                                +:+ "TIP: `repo status` and revert changes!!!")) w
                else (on_files (mkdir_parents (parent file)) >> on_files (touch file)
                      >> on_files (open_w file) >> on_files (write_end file t)) w)
             (WsVerifier ws file);
           Step "delete"
             match last (filter (fun f => ~ path_exists fs f) (parents file)) with
             | Some d => on_files (rmtree d)
             | None => on_files (unlink file)
             end
             (WsVerifier OMISSION file)], st).
Proof. reflexivity. Qed.

Section BuildFiles.

Variable E : env.
Variable fs : filesystem.

(** X6. For an existing build file whose workspace counterpart has a name,
    [modify_revert_kept_build_file] builds a modify step that appends the
    generated marker line and is verified by a search for that very line in
    the workspace BUILD.bazel, and a revert step, verified by the absence of
    the line, that gives the file back. *)
Theorem kept_build_file_marker_is_searched (build_file : path) (st : cstate)
    (w : world) (c : bytes) :
  fs !! build_file = Some (File c) ->
  files w !! build_file = Some (File c) ->
  ws_counterpart E build_file <> root ->
  exists g st' modify revert ws_build_file b,
    let content := bogus_marker (uuid4 (rand st)).1 in
    modify_revert_kept_build_file E fs build_file st = OK (g, st')
    /\ steps g = [modify; revert]
    /\ verb modify = "modify" /\ verb revert = "revert"
    /\ with_name (ws_counterpart E build_file) "BUILD.bazel" = OK ws_build_file
    /\ verify modify
       = Sequence NoVerify (SkipFor SOONG_ONLY (Contains ws_build_file content))
    /\ verify revert
       = Sequence NoVerify (SkipFor SOONG_ONLY (DoesNotContain ws_build_file content))
    /\ utf8_encode content = Some b
    /\ apply_change modify w
       = Done (World (<[build_file := File (c ++ b)]> (files w)) (cells w))
    /\ apply_change revert
         (World (<[build_file := File (c ++ b)]> (files w)) (cells w)) = Done w.
Proof.
  intros Hbuilt Hfile Hnamed. unfold modify_revert_kept_build_file.
  rewrite (bind_ok _ _ _ _ _ (draw_uuid_eq st)). cbv zeta.
  set (u := (uuid4 (rand st)).1).
  assert (Hexists : path_exists fs build_file = true).
  { apply path_exists_true. by rewrite Hbuilt. }
  rewrite (bind_ok _ _ _ _ _
             (modify_revert_given_text E fs build_file (bogus_marker u) _ Hexists)).
  cbn [steps two_steps]. rewrite (bind_ok _ _ _ _ _ eq_refl). cbn [fst snd].
  destruct (ws_counterpart E build_file) as [|n q] eqn:Hws; [done|].
  cbn [with_name lift]. rewrite (bind_ok _ _ _ _ _ eq_refl).
  destruct (utf8_encode_one_byte _ (bogus_marker_one_byte u)) as (b & Hb & Hlen).
  do 4 eexists. exists (("BUILD.bazel" : string) :: q), b.
  split; [reflexivity|]. split; [reflexivity|].
  split; [reflexivity|]. split; [reflexivity|]. split; [reflexivity|].
  split; [reflexivity|]. split; [reflexivity|]. split; [exact Hb|].
  cbn [apply_change].
  split; [by apply add_line_done | by apply truncate_done].
Qed.

(** X7. Whatever the name of the build file, provided its workspace
    counterpart has a name, [create_delete_unkept_build_file] builds a
    create step that expects a symlink and a delete step that expects an
    omission, both also verified by the absence of the generated marker
    line from the workspace BUILD.bazel; that line is what a create step
    that returns has written to the file. *)
Theorem unkept_build_file_marker_is_disproved (build_file : path) (st : cstate) :
  ws_counterpart E build_file <> root ->
  exists g st' create delete ws_build_file b,
    let content := bogus_marker (uuid4 (rand st)).1 in
    create_delete_unkept_build_file E fs build_file st = OK (g, st')
    /\ steps g = [create; delete]
    /\ verb create = "create" /\ verb delete = "delete"
    /\ with_name (ws_counterpart E build_file) "BUILD.bazel" = OK ws_build_file
    /\ verify create
       = Sequence (WsVerifier SYMLINK build_file)
           (SkipFor SOONG_ONLY (DoesNotContain ws_build_file content))
    /\ verify delete
       = Sequence (WsVerifier OMISSION build_file)
           (SkipFor SOONG_ONLY (DoesNotContain ws_build_file content))
    /\ utf8_encode content = Some b
    /\ forall w w1,
         apply_change create w = Done w1 ->
         files w1 !! build_file = Some (File b).
Proof.
  intros Hnamed. unfold create_delete_unkept_build_file.
  rewrite (bind_ok _ _ _ _ _ (draw_uuid_eq st)). cbv zeta.
  set (u := (uuid4 (rand st)).1).
  destruct (ws_counterpart E build_file) as [|n q] eqn:Hws; [done|].
  cbn [with_name lift]. rewrite (bind_ok _ _ _ _ _ eq_refl).
  rewrite (bind_ok _ _ _ _ _
             (create_delete_some E fs build_file SYMLINK (bogus_marker u) _)).
  cbn [steps two_steps]. rewrite (bind_ok _ _ _ _ _ eq_refl). cbn [fst snd].
  destruct (utf8_encode_one_byte _ (bogus_marker_one_byte u)) as (b & Hb & Hlen).
  do 4 eexists. exists (("BUILD.bazel" : string) :: q), b.
  split; [reflexivity|]. split; [reflexivity|].
  split; [reflexivity|]. split; [reflexivity|]. split; [reflexivity|].
  split; [reflexivity|]. split; [reflexivity|]. split; [exact Hb|].
  intros w w1. cbn [apply_change].
  destruct (path_exists (files w) build_file); [discriminate|].
  intros Hrun. destruct (create_body_content _ _ _ _ Hrun) as (b' & Hb' & Hw1).
  congruence.
Qed.

End BuildFiles.

(** ** Decoding and encoding UTF-8 *)

Lemma byte_of_to_N (b : Byte.byte) : byte_of_N (Byte.to_N b) = b.
Proof. unfold byte_of_N. by rewrite Byte.of_to_N. Qed.

Lemma continuation_inv (b : Byte.byte) (n : N) :
  continuation b = Some n -> (Byte.to_N b = 128 + n /\ n < 64)%N.
Proof.
  unfold continuation.
  destruct ((128 <=? Byte.to_N b) && (Byte.to_N b <? 192))%N eqn:Hc; [|discriminate].
  apply andb_prop in Hc as [Hlo Hhi].
  apply N.leb_le in Hlo. apply N.ltb_lt in Hhi. intros [= <-]. lia.
Qed.

Lemma lor_disjoint (hi x : N) (k : N) :
  (x < 2 ^ k)%N -> (hi mod 2 ^ k = 0)%N -> N.lor hi x = (hi + x)%N.
Proof.
  intros Hx Hhi.
  assert (Hland : N.land hi x = 0%N).
  { apply N.bits_inj. intros i. rewrite N.land_spec, N.bits_0.
    destruct (N.lt_ge_cases i k) as [Hik|Hik].
    - rewrite <- (N.mod_pow2_bits_low hi k i Hik), Hhi, N.bits_0. reflexivity.
    - destruct (N.eq_dec x 0%N) as [->|Hx0]; [by rewrite N.bits_0, andb_false_r|].
      rewrite (N.bits_above_log2 x i), andb_false_r; [done|].
      apply N.log2_lt_pow2; [lia|].
      eapply N.lt_le_trans; [exact Hx|]. apply N.pow_le_mono_r; lia. }
  rewrite <- N.lxor_lor by exact Hland.
  symmetry. by apply N.add_nocarry_lxor.
Qed.

Lemma div_mod_64 (a r : N) :
  (r < 64)%N -> ((a * 64 + r) / 64 = a /\ (a * 64 + r) mod 64 = r)%N.
Proof.
  intros Hr. split.
  - symmetry. apply (N.div_unique _ 64 a r); lia.
  - symmetry. apply (N.mod_unique _ 64 a r); lia.
Qed.

Lemma shiftr_6 (c : N) : N.shiftr c 6 = (c / 64)%N.
Proof. by rewrite N.shiftr_div_pow2. Qed.

Lemma shiftr_12 (c : N) : N.shiftr c 12 = (c / 64 / 64)%N.
Proof. rewrite N.shiftr_div_pow2, N.Div0.div_div by lia. reflexivity. Qed.

Lemma shiftr_18 (c : N) : N.shiftr c 18 = (c / 64 / 64 / 64)%N.
Proof. rewrite N.shiftr_div_pow2, !N.Div0.div_div by lia. reflexivity. Qed.

Lemma land_63 (c : N) : N.land c 63 = (c mod 64)%N.
Proof. change 63%N with (N.ones 6). by rewrite N.land_ones. Qed.

Lemma utf8_decode_cons (b0 : Byte.byte) (r0 : bytes) :
  utf8_decode (b0 :: r0)
  = let n0 := Byte.to_N b0 in
    if (n0 <? 128)%N then cons n0 <$> utf8_decode r0
    else if (n0 <? 192)%N then None
    else
      match r0 with
      | [] => None
      | b1 :: r1 =>
          match continuation b1 with
          | None => None
          | Some n1 =>
              if (n0 <? 224)%N then
                let c := ((n0 - 192) * 64 + n1)%N in
                if (c <? 128)%N then None else cons c <$> utf8_decode r1
              else
                match r1 with
                | [] => None
                | b2 :: r2 =>
                    match continuation b2 with
                    | None => None
                    | Some n2 =>
                        if (n0 <? 240)%N then
                          let c := ((n0 - 224) * 4096 + n1 * 64 + n2)%N in
                          if ((c <? 2048) || ((55296 <=? c) && (c <=? 57343)))%N
                          then None
                          else cons c <$> utf8_decode r2
                        else
                          match r2 with
                          | [] => None
                          | b3 :: r3 =>
                              match continuation b3 with
                              | None => None
                              | Some n3 =>
                                  let c := ((n0 - 240) * 262144 + n1 * 4096
                                            + n2 * 64 + n3)%N in
                                  if ((c <? 65536) || (1114112 <=? c))%N
                                  then None
                                  else cons c <$> utf8_decode r3
                              end
                          end
                    end
                end
          end
      end.
Proof. reflexivity. Qed.

Lemma utf8_encode_cons (c : N) (t : text) (b bs : bytes) :
  utf8_encode_char c = Some b -> utf8_encode t = Some bs ->
  utf8_encode (c :: t) = Some (b ++ bs).
Proof. intros Hc Ht. cbn [utf8_encode]. by rewrite Hc, Ht. Qed.

(** Every byte sequence the decoder accepts is the encoding of the text it
    decodes to. *)
Lemma utf8_decode_encode (c : bytes) (t : text) :
  utf8_decode c = Some t -> utf8_encode t = Some c.
Proof.
  remember (length c) as k eqn:Hk. revert c t Hk.
  induction k as [k IH] using lt_wf_ind. intros c t Hk.
  destruct c as [|b0 r0]; [by intros [= <-]|].
  rewrite utf8_decode_cons. cbv zeta.
  pose proof (Byte.to_N_bounded b0) as Hb0.
  destruct (N.ltb_spec (Byte.to_N b0) 128) as [H1|H1].
  { intros (t' & Ht' & ->)%fmap_Some.
    change (b0 :: r0) with ([b0] ++ r0). apply utf8_encode_cons.
    - unfold utf8_encode_char. rewrite (proj2 (N.ltb_lt _ _) H1).
      by rewrite byte_of_to_N.
    - apply (IH (length r0)); [cbn in Hk; lia | done | done]. }
  destruct (N.ltb_spec (Byte.to_N b0) 192) as [H2|H2]; [discriminate|].
  destruct r0 as [|b1 r1]; [discriminate|].
  destruct (continuation b1) as [n1|] eqn:Hc1; [|discriminate].
  apply continuation_inv in Hc1 as [Hb1 Hn1].
  destruct (N.ltb_spec (Byte.to_N b0) 224) as [H3|H3].
  { set (x := (Byte.to_N b0 - 192)%N). assert (Hx : (x < 32)%N) by lia.
    set (c0 := (x * 64 + n1)%N).
    destruct (N.ltb_spec c0 128) as [H4|H4]; [discriminate|].
    intros (t' & Ht' & ->)%fmap_Some.
    change (b0 :: b1 :: r1) with ([b0; b1] ++ r1). apply utf8_encode_cons.
    - unfold utf8_encode_char.
      rewrite (proj2 (N.ltb_ge _ _) H4).
      rewrite (proj2 (N.ltb_lt c0 2048)) by (unfold c0; lia).
      rewrite shiftr_6, land_63. unfold c0.
      destruct (div_mod_64 x n1 Hn1) as [-> ->].
      rewrite (lor_disjoint 192 x 6), (lor_disjoint 128 n1 6) by (cbn; first [lia|done]).
      replace (192 + x)%N with (Byte.to_N b0) by lia. rewrite <- Hb1.
      by rewrite !byte_of_to_N.
    - apply (IH (length r1)); [cbn in Hk; lia | done | done]. }
  destruct r1 as [|b2 r2]; [discriminate|].
  destruct (continuation b2) as [n2|] eqn:Hc2; [|discriminate].
  apply continuation_inv in Hc2 as [Hb2 Hn2].
  destruct (N.ltb_spec (Byte.to_N b0) 240) as [H5|H5].
  { set (x := (Byte.to_N b0 - 224)%N). assert (Hx : (x < 16)%N) by lia.
    set (c0 := (x * 4096 + n1 * 64 + n2)%N).
    destruct ((c0 <? 2048) || ((55296 <=? c0) && (c0 <=? 57343)))%N eqn:Hbad;
      [discriminate|].
    apply orb_false_elim in Hbad as [Hlow Hsur]. apply N.ltb_ge in Hlow.
    intros (t' & Ht' & ->)%fmap_Some.
    change (b0 :: b1 :: b2 :: r2) with ([b0; b1; b2] ++ r2). apply utf8_encode_cons.
    - unfold utf8_encode_char.
      rewrite (proj2 (N.ltb_ge c0 128)) by lia.
      rewrite (proj2 (N.ltb_ge c0 2048)) by lia.
      rewrite (proj2 (N.ltb_lt c0 65536)) by (unfold c0; lia).
      rewrite Hsur.
      rewrite shiftr_12, shiftr_6, !land_63.
      replace c0 with ((x * 64 + n1) * 64 + n2)%N by (unfold c0; lia).
      destruct (div_mod_64 (x * 64 + n1) n2 Hn2) as [-> ->].
      destruct (div_mod_64 x n1 Hn1) as [-> ->].
      rewrite (lor_disjoint 224 x 5), (lor_disjoint 128 n1 6),
        (lor_disjoint 128 n2 6) by (cbn; first [lia|done]).
      replace (224 + x)%N with (Byte.to_N b0) by lia. rewrite <- Hb1, <- Hb2.
      by rewrite !byte_of_to_N.
    - apply (IH (length r2)); [cbn in Hk; lia | done | done]. }
  destruct r2 as [|b3 r3]; [discriminate|].
  destruct (continuation b3) as [n3|] eqn:Hc3; [|discriminate].
  apply continuation_inv in Hc3 as [Hb3 Hn3].
  set (x := (Byte.to_N b0 - 240)%N). assert (Hx : (x < 16)%N) by lia.
  set (c0 := (x * 262144 + n1 * 4096 + n2 * 64 + n3)%N).
  destruct ((c0 <? 65536) || (1114112 <=? c0))%N eqn:Hbad; [discriminate|].
  apply orb_false_elim in Hbad as [Hlow Hhigh].
  apply N.ltb_ge in Hlow. apply N.leb_gt in Hhigh.
  intros (t' & Ht' & ->)%fmap_Some.
  change (b0 :: b1 :: b2 :: b3 :: r3) with ([b0; b1; b2; b3] ++ r3).
  apply utf8_encode_cons.
  - unfold utf8_encode_char.
    rewrite (proj2 (N.ltb_ge c0 128)) by lia.
    rewrite (proj2 (N.ltb_ge c0 2048)) by lia.
    rewrite (proj2 (N.ltb_ge c0 65536)) by lia.
    rewrite (proj2 (N.ltb_lt c0 1114112)) by lia.
    rewrite shiftr_18, shiftr_12, shiftr_6, !land_63.
    replace c0 with (((x * 64 + n1) * 64 + n2) * 64 + n3)%N by (unfold c0; lia).
    destruct (div_mod_64 ((x * 64 + n1) * 64 + n2) n3 Hn3) as [-> ->].
    destruct (div_mod_64 (x * 64 + n1) n2 Hn2) as [-> ->].
    destruct (div_mod_64 x n1 Hn1) as [-> ->].
    rewrite (lor_disjoint 240 x 4), (lor_disjoint 128 n1 6),
      (lor_disjoint 128 n2 6), (lor_disjoint 128 n3 6) by (cbn; first [lia|done]).
    replace (240 + x)%N with (Byte.to_N b0) by lia. rewrite <- Hb1, <- Hb2, <- Hb3.
    by rewrite !byte_of_to_N.
  - apply (IH (length r3)); [cbn in Hk; lia | done | done].
Qed.

Lemma universal_newlines_id (t : text) : 13%N ∉ t -> universal_newlines t = t.
Proof.
  induction t as [|c t IH]; [done|]. intros Hnot.
  apply not_elem_of_cons in Hnot as [Hc Ht]. cbn [universal_newlines].
  rewrite (proj2 (N.eqb_neq c 13)) by done. by rewrite IH.
Qed.

Lemma utf8_encode_Forall (t : text) :
  is_Some (utf8_encode t) <-> Forall (fun c => is_Some (utf8_encode_char c)) t.
Proof.
  induction t as [|c t IH]; cbn [utf8_encode].
  - split; [constructor | by eexists].
  - rewrite Forall_cons, <- IH.
    destruct (utf8_encode_char c) as [b|], (utf8_encode t) as [bs|];
      split; try (intros [? ?]); try (intros [[? ?] [? ?]]); try done; eauto.
Qed.

Lemma universal_newlines_Forall (P : N -> Prop) (t : text) :
  P 10%N -> Forall P t -> Forall P (universal_newlines t).
Proof.
  intros H10. remember (length t) as k eqn:Hk. revert t Hk.
  induction k as [k IH] using lt_wf_ind. intros t Hk Ht.
  destruct t as [|c t]; [constructor|]. cbn [universal_newlines].
  apply Forall_cons in Ht as [Hc Ht].
  destruct (c =? 13)%N.
  - destruct t as [|d t]; [by repeat constructor|].
    destruct (d =? 10)%N.
    + apply Forall_cons in Ht as [_ Ht]. constructor; [done|].
      apply (IH (length t)); [cbn in Hk; lia | done | done].
    + constructor; [done|]. apply (IH (length (d :: t))); [cbn in Hk |- *; lia | done | done].
  - constructor; [done|]. apply (IH (length t)); [cbn in Hk; lia | done | done].
Qed.

Lemma read_text_encodable (p : path) (fs : filesystem) (t : text) :
  read_text p fs = OK t -> is_Some (utf8_encode t).
Proof.
  unfold read_text. destruct (fs !! p) as [[c|]|]; try discriminate.
  destruct (utf8_decode c) as [t0|] eqn:Hdec; [|discriminate]. intros [= <-].
  apply utf8_encode_Forall, universal_newlines_Forall; [by eexists|].
  apply utf8_encode_Forall. rewrite (utf8_decode_encode c t0 Hdec). by eexists.
Qed.

Lemma write_text_file (p : path) (t : text) (c0 b : bytes) (fs : filesystem)
    (cs : gmap nat text) :
  fs !! p = Some (File c0) ->
  utf8_encode t = Some b ->
  write_text p t (World fs cs) = Done (World (<[p := File b]> fs) cs).
Proof.
  intros Hp Hb. unfold write_text, and_then, on_files, open_w, write_end.
  cbn [files cells]. rewrite Hp. cbn [files cells].
  rewrite Hb, lookup_insert_eq. cbn [app]. by rewrite insert_insert_eq.
Qed.

Lemma write_text_file_inv (p : path) (t : text) (c0 : bytes) (w w' : world) :
  files w !! p = Some (File c0) ->
  write_text p t w = Done w' ->
  exists b, utf8_encode t = Some b
            /\ w' = World (<[p := File b]> (files w)) (cells w).
Proof.
  intros Hp. destruct w as [fs cs]. cbn [files cells] in *.
  destruct (utf8_encode t) as [b|] eqn:Hb.
  - rewrite (write_text_file p t c0 b fs cs Hp Hb). intros [= <-]. eauto.
  - unfold write_text, and_then, on_files, open_w, write_end.
    cbn [files cells]. rewrite Hp. cbn [files cells]. by rewrite Hb.
Qed.

Lemma regex_modify_revert_built (E : env) (fs : filesystem) (file : path)
    (pattern replacement modify_type : string) (st : cstate) :
  path_exists fs file = true ->
  regex_modify_revert E fs file pattern replacement modify_type st
  = OK (Group (de_src E file)
          [Step modify_type
             (fun w =>
                match read_text file (files w) with
                | Err e => Raised e w
                | OK t =>
                    let w1 := World (files w) (<[next_cell st := t]> (cells w)) in
                    match re_sub E pattern replacement t with
                    | Err e => Raised e w1
                    | OK modified_text => write_text file modified_text w1
                    end
                end) NoVerify;
           Step "revert"
             (fun w =>
                match cells w !! next_cell st with
                | None => Raised (NameError "original_text") w
                | Some t => write_text file t w
                end) NoVerify],
        CState (rand st) (S (next_cell st))).
Proof. intros Hexists. unfold regex_modify_revert. by rewrite Hexists. Qed.

Section RegexRoundTrip.

Variable E : env.
Variable fs : filesystem.

(** X8. After a modify step of [regex_modify_revert] that returns, the
    revert step returns too and leaves in the file the UTF-8 bytes of the
    text that was read, line ends translated to LF; a second revert changes
    nothing more.  For a file without carriage returns the bytes are the
    original content, so the filesystem is as it was before the modify
    step. *)
Theorem regex_modify_then_revert (file : path) (pattern replacement modify_type : string)
    (st : cstate) :
  path_exists fs file = true ->
  exists g st' modify revert,
    regex_modify_revert E fs file pattern replacement modify_type st = OK (g, st')
    /\ steps g = [modify; revert]
    /\ forall w c w1,
         files w !! file = Some (File c) ->
         apply_change modify w = Done w1 ->
         exists t b w2,
           utf8_decode c = Some t
           /\ utf8_encode (universal_newlines t) = Some b
           /\ apply_change revert w1 = Done w2
           /\ apply_change revert w2 = Done w2
           /\ files w2 = <[file := File b]> (files w)
           /\ (13%N ∉ t -> files w2 = files w).
Proof.
  intros Hexists.
  rewrite (regex_modify_revert_built E fs file pattern replacement modify_type st Hexists).
  do 4 eexists. split; [reflexivity|]. split; [reflexivity|].
  intros [now cs] c w1 Hfile. cbn [apply_change files cells] in *.
  destruct (read_text file now) as [t1|e] eqn:Hread; [|discriminate].
  pose proof (read_text_encodable _ _ _ Hread) as [b Hb].
  unfold read_text in Hread. rewrite Hfile in Hread.
  destruct (utf8_decode c) as [t|] eqn:Hdec; [|discriminate].
  injection Hread as <-.
  destruct (re_sub E pattern replacement (universal_newlines t)) as [m|e];
    [|discriminate].
  intros Hmod.
  destruct (write_text_file_inv file m c (World now _) w1 Hfile Hmod) as (bm & Hbm & ->).
  cbn [files cells]. rewrite lookup_insert_eq.
  exists t, b.
  exists (World (<[file := File b]> now) (<[next_cell st := universal_newlines t]> cs)).
  split; [reflexivity|]. split; [exact Hb|].
  rewrite (write_text_file file (universal_newlines t) bm b)
    by (by rewrite ?lookup_insert_eq).
  rewrite insert_insert_eq. split; [reflexivity|]. cbn [files cells].
  rewrite lookup_insert_eq.
  rewrite (write_text_file file (universal_newlines t) b b)
    by (by rewrite ?lookup_insert_eq).
  rewrite insert_insert_eq. split; [reflexivity|].
  split; [reflexivity|].
  intros Hcr. rewrite (universal_newlines_id t Hcr) in Hb.
  rewrite (utf8_decode_encode c t Hdec) in Hb. injection Hb as <-.
  by apply insert_id.
Qed.

(** X9. Groups built by successive calls of [regex_modify_revert] keep
    their captured texts apart, also on one and the same file: after the
    modify steps of both, the revert step of each writes back the text its
    own modify step had read. *)
Theorem regex_groups_keep_their_own_text (file1 file2 : path)
    (pattern1 replacement1 type1 pattern2 replacement2 type2 : string)
    (st : cstate) :
  path_exists fs file1 = true ->
  path_exists fs file2 = true ->
  exists g1 st1 g2 st2 modify1 revert1 modify2 revert2,
    regex_modify_revert E fs file1 pattern1 replacement1 type1 st = OK (g1, st1)
    /\ regex_modify_revert E fs file2 pattern2 replacement2 type2 st1 = OK (g2, st2)
    /\ steps g1 = [modify1; revert1]
    /\ steps g2 = [modify2; revert2]
    /\ forall w w1 w2,
         apply_change modify1 w = Done w1 ->
         apply_change modify2 w1 = Done w2 ->
         exists t1 t2,
           read_text file1 (files w) = OK t1
           /\ read_text file2 (files w1) = OK t2
           /\ apply_change revert1 w2 = write_text file1 t1 w2
           /\ apply_change revert2 w2 = write_text file2 t2 w2.
Proof.
  intros H1 H2.
  rewrite (regex_modify_revert_built E fs file1 pattern1 replacement1 type1 st H1).
  do 2 eexists.
  rewrite (regex_modify_revert_built E fs file2 pattern2 replacement2 type2 _ H2).
  do 6 eexists. split; [reflexivity|]. split; [reflexivity|].
  split; [reflexivity|]. split; [reflexivity|].
  intros w w1 w2. cbn [apply_change next_cell].
  destruct (read_text file1 (files w)) as [t1|e] eqn:Hr1; [|discriminate].
  destruct (re_sub E pattern1 replacement1 t1) as [m1|e]; [|discriminate].
  intros Hw1. pose proof (write_text_done _ _ _ _ Hw1) as Hc1. cbn [cells] in Hc1.
  destruct (read_text file2 (files w1)) as [t2|e] eqn:Hr2; [|discriminate].
  destruct (re_sub E pattern2 replacement2 t2) as [m2|e]; [|discriminate].
  intros Hw2. pose proof (write_text_done _ _ _ _ Hw2) as Hc2. cbn [cells] in Hc2.
  exists t1, t2. split; [reflexivity|]. split; [reflexivity|].
  rewrite Hc2, Hc1. rewrite lookup_insert_eq.
  rewrite lookup_insert_ne by lia. by rewrite lookup_insert_eq.
Qed.

End RegexRoundTrip.

(** ** A file replaced by a directory *)

Lemma create_delete_built (E : env) (fs : filesystem) (file : path)
    (ws : InWorkspace) (text_ : option text) (st : cstate) :
  create_delete E fs file ws text_ st
  = OK (Group (de_src E file)
          [Step "create"
             (create_step_of file
                match text_ with
                | Some t => t
                | None => test_file_marker (uuid4 (rand st)).1
                end)
             (WsVerifier ws file);
           Step "delete" (delete_step_of fs file) (WsVerifier OMISSION file)],
        match text_ with
        | Some _ => st
        | None => CState (uuid4 (rand st)).2 (next_cell st)
        end).
Proof.
  unfold create_delete. destruct text_ as [t|]; [reflexivity|].
  unfold bind, draw_uuid. by destruct (uuid4 (rand st)).
Qed.

(** In a tree-shaped filesystem the delete closure undoes a create closure
    that returned. *)
Lemma create_then_delete_back (fs : filesystem) (file : path) (t : text)
    (cs : gmap nat text) (w1 : world) :
  wf_fs fs ->
  create_step_of file t (World fs cs) = Done w1 ->
  delete_step_of fs file w1 = Done (World fs cs).
Proof.
  intros Hwf. unfold create_step_of, delete_step_of. cbn [files].
  destruct (path_exists fs file) eqn:Hfile; [discriminate|].
  apply path_exists_false in Hfile. intros Hcreate.
  destruct (create_body_done file t fs cs w1 Hwf Hfile Hcreate)
    as (n & p & fs1 & b & -> & Hmk & Hfile1 & ->).
  destruct (mkdir_parents_ok p fs fs1 Hwf Hmk) as (Hwf1 & Hp1 & Hdiff).
  destruct (last (filter (fun f => ~ path_exists fs f) (parents (n :: p))))
    as [d|] eqn:Hlast.
  - destruct (last_missing_is_shallowest fs _ d Hlast) as (Hd & Hmiss & Hall).
    apply path_exists_false in Hmiss.
    pose proof (parents_suffix _ _ Hd) as [Hsuf Hne].
    apply elem_of_parents in Hd.
    assert (Hd1 : fs1 !! d = Some Dir).
    { destruct (decide (d = p)) as [->|Hdp]; [done|].
      apply (wf_ancestor fs1 d p); [done | by rewrite Hp1 | done | done]. }
    unfold on_files, rmtree. cbn [files cells].
    rewrite lookup_insert_ne by done. rewrite Hd1. f_equal. f_equal.
    apply map_eq. intros q.
    destruct (decide (d `suffix_of` q)) as [Hdq|Hdq].
    + rewrite (wf_missing_below fs d q Hwf Hmiss Hdq).
      apply map_lookup_filter_None_2. right. intros x _ Hnot. by apply Hnot.
    + assert (Hq : (<[n :: p := File b]> fs1 : filesystem) !! q = fs !! q).
      { rewrite lookup_insert_ne by (intros <-; by apply Hdq).
        destruct (Hdiff q) as [Heq|(Hqp & Hq & _)]; [done|].
        exfalso. apply Hdq, Hall; [by apply elem_of_parents|].
        by apply path_exists_false. }
      destruct (fs !! q) as [x|] eqn:Hfsq.
      * by apply map_lookup_filter_Some_2.
      * apply map_lookup_filter_None_2. by left.
  - assert (Hall : forall d, d ∈ parents (n :: p) -> path_exists fs d = true).
    { intros d Hd. destruct (path_exists fs d) eqn:He; [done|].
      destruct (some_missing_parent fs _ d Hd He) as [d' Hd'].
      rewrite Hlast in Hd'. discriminate. }
    unfold on_files, unlink. cbn [files cells].
    rewrite lookup_insert_eq. f_equal. f_equal.
    rewrite delete_insert_eq, (delete_id fs1) by done.
    apply map_eq. intros q.
    destruct (Hdiff q) as [Heq|(Hqp & Hq & _)]; [done|].
    apply elem_of_parents with (n := n) in Hqp.
    apply Hall, path_exists_true in Hqp. rewrite Hq in Hqp. by destruct Hqp.
Qed.

Lemma joinpath_android_bp (p : path) : joinpath p "Android.bp" = "Android.bp" :: p.
Proof. by apply joinpath_component. Qed.

Section ReplaceLinkWithDir.

Variable E : env.
Variable fs : filesystem.

(** X10. [replace_link_with_dir] builds three steps: create the file,
    delete it and create Android.bp inside a directory of the same name
    (verified as a symlink), and delete again.  In a tree-shaped filesystem
    a run of the three steps that returns ends in the world it started
    from. *)
Theorem replace_link_with_dir_returns_to_start (p : path) (st : cstate) :
  exists g st' create_file replace_it delete_dir,
    replace_link_with_dir E fs p st = OK (g, st')
    /\ description g = de_src E p
    /\ steps g = [create_file; replace_it; delete_dir]
    /\ verb create_file = "create"
    /\ verb replace_it = de_src E p +:+ "/Android.bp instead of"
    /\ verb delete_dir = "delete"
    /\ verify create_file = WsVerifier SYMLINK p
    /\ verify replace_it = WsVerifier SYMLINK ("Android.bp" :: p)
    /\ verify delete_dir = WsVerifier OMISSION ("Android.bp" :: p)
    /\ (wf_fs fs ->
        forall cs w3,
          run_steps (steps g) (World fs cs) = Done w3 -> w3 = World fs cs).
Proof.
  unfold replace_link_with_dir.
  rewrite (bind_ok _ _ _ _ _ (create_delete_built E fs p SYMLINK None st)).
  cbn [steps two_steps]. rewrite (bind_ok _ _ _ _ _ eq_refl). cbn [fst snd].
  unfold create_delete_bp. rewrite joinpath_android_bp.
  rewrite (bind_ok _ _ _ _ _ (create_delete_built E fs _ SYMLINK (Some _) _)).
  cbn [steps two_steps]. rewrite (bind_ok _ _ _ _ _ eq_refl). cbn [fst snd].
  do 5 eexists. split; [reflexivity|]. do 8 (split; [reflexivity|]).
  intros Hwf cs w3. cbn [steps run_steps apply_change]. unfold and_then.
  destruct (create_step_of p _ (World fs cs)) as [w1|e w1] eqn:Hc1; [|discriminate].
  rewrite (create_then_delete_back fs p _ cs w1 Hwf Hc1).
  destruct (create_step_of ("Android.bp" :: p) _ (World fs cs)) as [w2|e w2] eqn:Hc2;
    [|discriminate].
  rewrite (create_then_delete_back fs _ _ cs w2 Hwf Hc2). by intros [= <-].
Qed.

End ReplaceLinkWithDir.

(** ** The shape of the catalog *)

Lemma bind_inv {A B} (m : build A) (f : A -> build B) st b st' :
  bind m f st = OK (b, st') ->
  exists a st1, m st = OK (a, st1) /\ f a st1 = OK (b, st').
Proof.
  unfold bind. destruct (m st) as [[a st1]|e]; [|discriminate]. eauto.
Qed.

Lemma map_build_Forall {A B} (P : B -> Prop) (f : A -> build B) (l : list A)
    st bs st' :
  (forall a st0 b st1, f a st0 = OK (b, st1) -> P b) ->
  map_build f l st = OK (bs, st') ->
  Forall P bs /\ length bs = length l.
Proof.
  intros Hf. revert st bs st'.
  induction l as [|a l IH]; intros st bs st'; cbn [map_build].
  - intros [= <- _]. by split.
  - intros (b & st1 & Hb & (bs' & st2 & Hbs & [= <- _])%bind_inv)%bind_inv.
    destruct (IH _ _ _ Hbs) as [HF Hlen].
    split; [constructor; eauto | cbn; by rewrite Hlen].
Qed.

Section Pairs.

Variable E : env.
Variable fs : filesystem.

Lemma modify_revert_pair file text_ st g st' :
  modify_revert E fs file text_ st = OK (g, st') -> pair_of_steps g.
Proof.
  unfold modify_revert.
  intros (t & st1 & _ & H)%bind_inv.
  destruct (negb (path_exists fs file)); [discriminate|]. by injection H as <- _.
Qed.

Lemma regex_modify_revert_pair file pat rep mt st g st' :
  regex_modify_revert E fs file pat rep mt st = OK (g, st') -> pair_of_steps g.
Proof.
  unfold regex_modify_revert.
  destruct (negb (path_exists fs file)); [discriminate|].
  intros (c & st1 & _ & H)%bind_inv. by injection H as <- _.
Qed.

Lemma canned_pair (c : canned) file st g st' :
  canned_recipe c E fs file st = OK (g, st') -> pair_of_steps g.
Proof.
  destruct c; cbn [canned_recipe];
    unfold modify_private_method, add_private_field, add_public_api,
      modify_resource, add_resource;
    intros (n & st1 & _ & H)%bind_inv; by apply regex_modify_revert_pair in H.
Qed.

Lemma create_delete_pair file ws text_ st g st' :
  create_delete E fs file ws text_ st = OK (g, st') -> pair_of_steps g.
Proof. rewrite create_delete_built. by intros [= <- _]. Qed.

Lemma delete_restore_pair original ws st g st' :
  delete_restore E original ws st = OK (g, st') -> pair_of_steps g.
Proof.
  unfold delete_restore.
  destruct (is_relative_to (tempdir E) (top_dir E)); [discriminate|].
  destruct (is_relative_to (tempdir E) (out_dir E)); [discriminate|].
  intros (u & st1 & _ & H)%bind_inv. by injection H as <- _.
Qed.

Lemma two_steps_inv l st s1 s2 st' :
  two_steps l st = OK ((s1, s2), st') -> l = [s1; s2].
Proof.
  destruct l as [|a [|b [|c l]]]; cbn; try discriminate. by intros [= <- <- _].
Qed.

Lemma unkept_pair build_file st g st' :
  create_delete_unkept_build_file E fs build_file st = OK (g, st') ->
  pair_of_steps g.
Proof.
  unfold create_delete_unkept_build_file.
  intros (u & st1 & _ & (wsf & st2 & _ & (g0 & st3 & _
            & (ss & st4 & _ & H)%bind_inv)%bind_inv)%bind_inv)%bind_inv.
  by injection H as <- _.
Qed.

Lemma kept_create_pair build_file st g st' :
  create_delete_kept_build_file E fs build_file st = OK (g, st') ->
  pair_of_steps g.
Proof.
  unfold create_delete_kept_build_file.
  intros (u & st1 & _ & (wsf & st2 & _ & (ws & st3 & _ & (g0 & st4 & _
            & (ss & st5 & _ & H)%bind_inv)%bind_inv)%bind_inv)%bind_inv)%bind_inv.
  by injection H as <- _.
Qed.

Lemma kept_modify_pair build_file st g st' :
  modify_revert_kept_build_file E fs build_file st = OK (g, st') ->
  pair_of_steps g.
Proof.
  unfold modify_revert_kept_build_file.
  intros (u & st1 & _ & (g0 & st2 & _ & (ss & st3 & _
            & (wsf & st4 & _ & H)%bind_inv)%bind_inv)%bind_inv)%bind_inv.
  by injection H as <- _.
Qed.

Lemma replace_link_with_dir_triple p st g st' :
  replace_link_with_dir E fs p st = OK (g, st') -> length (steps g) = 3.
Proof.
  unfold replace_link_with_dir.
  intros (cd & st1 & _ & (cf & st2 & _ & (bp & st3 & _
            & (cdir & st4 & _ & H)%bind_inv)%bind_inv)%bind_inv)%bind_inv.
  by injection H as <- _.
Qed.

Lemma unkept_cujs_pairs st gs st' :
  _unkept_build_cujs E fs st = OK (gs, st') ->
  Forall pair_of_steps gs /\ length gs = 5.
Proof.
  unfold _unkept_build_cujs.
  intros (? & st1 & _ & (a & st2 & Ha & (b & st3 & Hb & (c & st4 & Hc
            & H)%bind_inv)%bind_inv)%bind_inv)%bind_inv.
  injection H as <- _.
  apply (map_build_Forall pair_of_steps) in Ha as [Ha Hla];
    [|intros ????; apply unkept_pair].
  apply (map_build_Forall pair_of_steps) in Hb as [Hb Hlb];
    [|intros ????; apply create_delete_pair].
  apply create_delete_pair in Hc.
  split.
  - repeat (apply Forall_app; split); try done. by constructor.
  - rewrite !length_app, Hla, Hlb. reflexivity.
Qed.

Lemma kept_cujs_pairs st gs st' :
  _kept_build_cujs E fs st = OK (gs, st') ->
  Forall pair_of_steps gs /\ length gs = 4.
Proof.
  unfold _kept_build_cujs.
  intros (? & st1 & _ & (a & st2 & Ha & (c & st3 & Hc & (m & st4 & Hm
            & H)%bind_inv)%bind_inv)%bind_inv)%bind_inv.
  injection H as <- _.
  apply (map_build_Forall pair_of_steps) in Ha as [Ha Hla];
    [|intros ????; apply kept_create_pair].
  apply create_delete_pair in Hc. apply kept_modify_pair in Hm.
  split.
  - apply Forall_app; split; [done|]. by repeat constructor.
  - rewrite !length_app, Hla. reflexivity.
Qed.

(** X11. A catalog that [get_cujgroups] returns begins with the clean group
    and the warm-up group, both with an empty description, followed by the
    five cloned groups; then come thirty-three scenario groups of exactly
    two steps each, and last the replace-with-directory group of three
    steps: forty-one groups in all. *)
Theorem catalog_shape (st : cstate) (gs : list CujGroup) (st' : cstate) :
  get_cujgroups E fs st = OK (gs, st') ->
  exists cloned scenarios replaced,
    gs = [Group "" [Step "clean" (clean E) NoVerify];
          Group "" [Step "no change" Done NoVerify]]
         ++ cloned ++ scenarios ++ [replaced]
    /\ length cloned = 5
    /\ length scenarios = 33
    /\ Forall pair_of_steps scenarios
    /\ length (steps replaced) = 3
    /\ length gs = 41.
Proof.
  unfold get_cujgroups. cbv zeta. intros H.
  do 4 (apply bind_inv in H as (? & ? & _ & H)).
  apply bind_inv in H as (bp0 & ? & Hbp0 & H).
  apply bind_inv in H as (bps & ? & Hbps & H).
  apply bind_inv in H as (m1 & ? & Hm1 & H).
  apply bind_inv in H as (m2 & ? & Hm2 & H).
  apply bind_inv in H as (m3 & ? & Hm3 & H).
  apply bind_inv in H as (m4 & ? & Hm4 & H).
  apply bind_inv in H as (m5 & ? & Hm5 & H).
  apply bind_inv in H as (m6 & ? & Hm6 & H).
  apply bind_inv in H as (m7 & ? & Hm7 & H).
  apply bind_inv in H as (m8 & ? & Hm8 & H).
  apply bind_inv in H as (m9 & ? & Hm9 & H).
  apply bind_inv in H as (u1 & ? & Hu1 & H).
  apply bind_inv in H as (u2 & ? & Hu2 & H).
  apply bind_inv in H as (c1 & ? & _ & H).
  apply bind_inv in H as (c2 & ? & _ & H).
  apply bind_inv in H as (c3 & ? & _ & H).
  apply bind_inv in H as (c4 & ? & _ & H).
  apply bind_inv in H as (c5 & ? & _ & H).
  apply bind_inv in H as (g & ? & Hg & H).
  apply bind_inv in H as (dr & ? & Hdr & H).
  apply bind_inv in H as (unkept & ? & Hunkept & H).
  apply bind_inv in H as (kept & ? & Hkept & H).
  apply bind_inv in H as (r & ? & Hr & H).
  injection H as <- _.
  apply modify_revert_pair in Hbp0.
  apply (map_build_Forall pair_of_steps) in Hbps as [Hbps Hlbps];
    [|intros ????; apply create_delete_pair].
  apply (map_build_Forall pair_of_steps) in Hm1 as [Hm1 Hlm1];
    [|intros ????; apply modify_revert_pair].
  apply (canned_pair ModifyPrivateMethod) in Hm2.
  apply (canned_pair AddPrivateField) in Hm3.
  apply (canned_pair AddPublicApi) in Hm4.
  apply (canned_pair ModifyPrivateMethod) in Hm5.
  apply (canned_pair AddPrivateField) in Hm6.
  apply (canned_pair AddPublicApi) in Hm7.
  apply (canned_pair ModifyResource) in Hm8.
  apply (canned_pair AddResource) in Hm9.
  apply (map_build_Forall pair_of_steps) in Hu1 as [Hu1 Hlu1];
    [|intros ????; apply create_delete_pair].
  apply (map_build_Forall pair_of_steps) in Hu2 as [Hu2 Hlu2];
    [|intros ????; apply create_delete_pair].
  apply create_delete_pair in Hg.
  apply (map_build_Forall pair_of_steps) in Hdr as [Hdr Hldr];
    [|intros ????; apply delete_restore_pair].
  apply unkept_cujs_pairs in Hunkept as [Hunkept Hlunkept].
  apply kept_cujs_pairs in Hkept as [Hkept Hlkept].
  apply replace_link_with_dir_triple in Hr.
  exists [c1; c2; c3; c4; c5].
  exists ([g] ++ dr ++ (u1 ++ u2) ++ (m1 ++ [m2; m3; m4; m5; m6; m7; m8; m9])
          ++ (bp0 :: bps) ++ unkept ++ kept).
  exists r.
  split; [by rewrite <- !app_assoc|].
  split; [reflexivity|].
  split.
  { cbn [length app]. repeat (rewrite length_app; cbn [length]).
    cbn [length] in *. lia. }
  split.
  { repeat (apply Forall_app; split); try done; by repeat constructor. }
  split; [done|].
  cbn [length app]. repeat (rewrite length_app; cbn [length]).
  cbn [length] in *. lia.
Qed.

End Pairs.

(** ** A whole cycle of create and delete *)





Section Cycle.

Variable E : env.
Variable fs : filesystem.



End Cycle.

(** ** The generated marker, and a file that has gone *)

(** X14. For a regular file and the generated marker, the modify step of
    [modify_revert] returns with the marker's bytes appended, and the
    revert step then returns the world to what it was. *)
Theorem default_marker_round_trip (E : env) (w : world) (file : path) (c : bytes)
    (st : cstate) :
  files w !! file = Some (File c) ->
  exists g st' modify revert b,
    modify_revert E (files w) file None st = OK (g, st')
    /\ steps g = [modify; revert]
    /\ verb modify = "modify" /\ verb revert = "revert"
    /\ utf8_encode (bogus_marker (uuid4 (rand st)).1) = Some b
    /\ apply_change modify w
       = Done (World (<[file := File (c ++ b)]> (files w)) (cells w))
    /\ apply_change revert (World (<[file := File (c ++ b)]> (files w)) (cells w))
       = Done w.
Proof.
  intros Hfile. unfold modify_revert.
  assert (Hexists : path_exists (files w) file = true).
  { apply path_exists_true. by rewrite Hfile. }
  rewrite (bind_ok _ _ st (bogus_marker (uuid4 (rand st)).1)
             (CState (uuid4 (rand st)).2 (next_cell st)))
    by (by rewrite (bind_ok _ _ _ _ _ (draw_uuid_eq st))).
  rewrite Hexists. cbn [negb].
  destruct (utf8_encode_one_byte _ (bogus_marker_one_byte (uuid4 (rand st)).1))
    as (b & Hb & Hlen).
  do 4 eexists. exists b.
  split; [reflexivity|]. do 3 (split; [reflexivity|]). split; [exact Hb|].
  cbn [apply_change].
  split; [by apply add_line_done | by apply truncate_done].
Qed.

Lemma run_steps_pair (s1 s2 : CujStep) (w w1 : world) :
  apply_change s1 w = Done w1 -> run_steps [s1; s2] w = apply_change s2 w1.
Proof.
  intros H1. cbn [run_steps]. unfold and_then. rewrite H1.
  by destruct (apply_change s2 w1).
Qed.

(** X15. The existence of the file is checked when [modify_revert] builds
    the group only: if the file has gone by the time the steps run, while
    its directory is still there, the modify step creates it with the text
    alone and the revert step leaves an empty file behind. *)
Theorem modify_revert_recreates_vanished_file (E : env) (fs : filesystem)
    (w : world) (n : string) (p : path) (t : text) (st : cstate) :
  path_exists fs (n :: p) = true ->
  files w !! (n :: p) = None ->
  files w !! p = Some Dir ->
  one_byte_per_char t ->
  exists g modify revert b,
    modify_revert E fs (n :: p) (Some t) st = OK (g, st)
    /\ steps g = [modify; revert]
    /\ utf8_encode t = Some b
    /\ apply_change modify w
       = Done (World (<[n :: p := File b]> (files w)) (cells w))
    /\ run_steps (steps g) w
       = Done (World (<[n :: p := File []]> (files w)) (cells w)).
Proof.
  intros Hexists Hgone Hdir Ht.
  rewrite (modify_revert_given_text E fs (n :: p) t st Hexists).
  destruct (utf8_encode_one_byte t Ht) as (b & Hb & Hlen).
  do 3 eexists. exists b.
  split; [reflexivity|]. split; [reflexivity|]. split; [exact Hb|].
  assert (Hmod : (on_files (open_a (n :: p)) >> on_files (write_end (n :: p) t)) w
                 = Done (World (<[n :: p := File b]> (files w)) (cells w))).
  { unfold and_then, on_files, open_a, write_end. rewrite Hgone.
    cbn [parent_error]. rewrite (proj2 (dir_error_none (files w) p) Hdir).
    cbn [files cells]. rewrite Hb, lookup_insert_eq. cbn [app].
    by rewrite insert_insert_eq. }
  split; [exact Hmod|].
  cbn [steps]. etrans; [apply run_steps_pair; exact Hmod|]. cbn [apply_change].
  unfold on_files, seek_end_truncate. cbn [files cells].
  rewrite lookup_insert_eq. rewrite bool_decide_eq_true_2 by lia.
  rewrite Hlen, Nat.sub_diag, take_0. by rewrite insert_insert_eq.
Qed.

(** ** When the catalog can be built *)

Lemma bind_returns {A B} (m : build A) (f : A -> build B) (st : cstate) :
  returns (m st) ->
  (forall a st1, m st = OK (a, st1) -> returns (f a st1)) ->
  returns (bind m f st).
Proof.
  intros (a & st1 & Hm) Hf. rewrite (bind_ok _ _ _ _ _ Hm). by apply Hf.
Qed.

Lemma ret_returns {A} (a : A) (st : cstate) : returns (ret a st).
Proof. by exists a, st. Qed.

Lemma map_build_returns {A B} (f : A -> build B) (l : list A) (st : cstate) :
  (forall a st0, a ∈ l -> returns (f a st0)) ->
  returns (map_build f l st).
Proof.
  revert st. induction l as [|a l IH]; intros st Hf; cbn [map_build].
  - apply ret_returns.
  - apply bind_returns; [apply Hf; by left|]. intros b st1 _.
    apply bind_returns; [apply IH; intros; apply Hf; by right|].
    intros bs st2 _. apply ret_returns.
Qed.

Lemma joinpath_relative (p : path) (s : string) (l : list string) :
  is_absolute s = false -> parts s = l -> joinpath p s = rev l ++ p.
Proof. unfold joinpath. by intros -> ->. Qed.

Section Returns.

Variable E : env.
Variable fs : filesystem.

Lemma confirmed_returns r pats st :
  confirm E fs r pats = None -> returns (confirmed E fs r pats st).
Proof. intros H. unfold confirmed. rewrite H. apply ret_returns. Qed.

Lemma modify_revert_returns file text_ st :
  path_exists fs file = true -> returns (modify_revert E fs file text_ st).
Proof.
  intros Hexists. unfold modify_revert.
  destruct (default_text_total bogus_marker text_ st) as (t & st' & Ht).
  rewrite (bind_ok _ _ _ _ _ Ht), Hexists. apply ret_returns.
Qed.

Lemma canned_returns (c : canned) file st :
  path_exists fs file = true -> returns (canned_recipe c E fs file st).
Proof.
  intros Hexists.
  destruct c; cbn [canned_recipe];
    unfold modify_private_method, add_private_field, add_public_api,
      modify_resource, add_resource;
    (apply bind_returns;
     [ unfold draw_int; destruct (randint 0 1000 (rand st)); by eexists _, _
     | intros n st1 _; rewrite regex_modify_revert_built by done; by eexists _, _ ]).
Qed.

Lemma create_delete_returns file ws text_ st :
  returns (create_delete E fs file ws text_ st).
Proof. rewrite create_delete_built. by eexists _, _. Qed.

Lemma delete_restore_returns original ws st :
  is_relative_to (tempdir E) (top_dir E) = false ->
  is_relative_to (tempdir E) (out_dir E) = false ->
  returns (delete_restore E original ws st).
Proof.
  intros H1 H2. unfold delete_restore. rewrite H1, H2.
  rewrite (bind_ok _ _ _ _ _ (draw_uuid_eq st)). by eexists _, _.
Qed.

Lemma with_name_returns (p : path) (n : string) st :
  p <> root -> returns (lift (with_name p n) st).
Proof. destruct p; [done|]. intros _. cbn. apply ret_returns. Qed.

Lemma unkept_returns build_file st :
  ws_counterpart E build_file <> root ->
  returns (create_delete_unkept_build_file E fs build_file st).
Proof.
  intros Hnamed. unfold create_delete_unkept_build_file.
  rewrite (bind_ok _ _ _ _ _ (draw_uuid_eq st)). cbv zeta.
  apply bind_returns; [by apply with_name_returns|]. intros wsf st1 _.
  rewrite (bind_ok _ _ _ _ _ (create_delete_built E fs _ _ _ _)).
  cbn [steps two_steps]. rewrite (bind_ok _ _ _ _ _ eq_refl). apply ret_returns.
Qed.

Lemma kept_create_returns build_file st :
  ws_counterpart E build_file <> root ->
  name build_file = "BUILD" \/ name build_file = "BUILD.bazel" ->
  returns (create_delete_kept_build_file E fs build_file st).
Proof.
  intros Hnamed Hname. unfold create_delete_kept_build_file.
  rewrite (bind_ok _ _ _ _ _ (draw_uuid_eq st)). cbv zeta.
  apply bind_returns; [by apply with_name_returns|]. intros wsf st1 _.
  apply bind_returns.
  { destruct Hname as [-> | ->]; cbn; apply ret_returns. }
  intros ws st2 _.
  rewrite (bind_ok _ _ _ _ _ (create_delete_built E fs _ _ _ _)).
  cbn [steps two_steps]. rewrite (bind_ok _ _ _ _ _ eq_refl). apply ret_returns.
Qed.

Lemma kept_modify_returns build_file st :
  path_exists fs build_file = true ->
  ws_counterpart E build_file <> root ->
  returns (modify_revert_kept_build_file E fs build_file st).
Proof.
  intros Hexists Hnamed. unfold modify_revert_kept_build_file.
  rewrite (bind_ok _ _ _ _ _ (draw_uuid_eq st)). cbv zeta.
  rewrite (bind_ok _ _ _ _ _ (modify_revert_given_text E fs build_file _ _ Hexists)).
  cbn [steps two_steps]. rewrite (bind_ok _ _ _ _ _ eq_refl).
  apply bind_returns; [by apply with_name_returns|]. intros wsf st1 _.
  apply ret_returns.
Qed.

Lemma replace_link_with_dir_returns p st :
  returns (replace_link_with_dir E fs p st).
Proof.
  unfold replace_link_with_dir.
  rewrite (bind_ok _ _ _ _ _ (create_delete_built E fs p SYMLINK None st)).
  cbn [steps two_steps]. rewrite (bind_ok _ _ _ _ _ eq_refl).
  unfold create_delete_bp.
  rewrite (bind_ok _ _ _ _ _ (create_delete_built E fs _ SYMLINK (Some _) _)).
  cbn [steps two_steps]. rewrite (bind_ok _ _ _ _ _ eq_refl). apply ret_returns.
Qed.

Lemma unkept_cujs_returns st :
  confirm E fs (unkept_confirmation E).1 (unkept_confirmation E).2 = None ->
  (forall p, ws_counterpart E p <> root) ->
  returns (_unkept_build_cujs E fs st).
Proof.
  intros Hc Hnamed. unfold _unkept_build_cujs.
  apply bind_returns; [by apply confirmed_returns|]. intros _ st1 _.
  apply bind_returns.
  { apply map_build_returns. intros; by apply unkept_returns. }
  intros a st2 _. apply bind_returns.
  { apply map_build_returns. intros; apply create_delete_returns. }
  intros b st3 _. apply bind_returns; [apply create_delete_returns|].
  intros c st4 _. apply ret_returns.
Qed.

Lemma kept_cujs_returns st :
  confirm E fs (kept_confirmation E).1 (kept_confirmation E).2 = None ->
  (forall p, ws_counterpart E p <> root) ->
  path_exists fs (joinpath (src E "build/bazel") "rules/python/BUILD") = true ->
  returns (_kept_build_cujs E fs st).
Proof.
  intros Hc Hnamed Hpy. unfold _kept_build_cujs.
  apply bind_returns; [by apply confirmed_returns|]. intros _ st1 _.
  apply bind_returns.
  { apply map_build_returns. intros b st0 Hb.
    apply kept_create_returns; [done|].
    apply elem_of_cons in Hb as [->|Hb]; [left|right].
    - by rewrite (joinpath_component _ "BUILD").
    - apply list_elem_of_singleton in Hb as ->.
      by rewrite (joinpath_component _ "BUILD.bazel"). }
  intros a st2 _. apply bind_returns; [apply create_delete_returns|].
  intros c st3 _. apply bind_returns; [by apply kept_modify_returns|].
  intros m st4 _. apply ret_returns.
Qed.

(** X16. [get_cujgroups] returns a catalog whenever every confirmation
    passes, the eight files it edits in place and the kept
    rules/python/BUILD exist, the temporary directory lies in neither tree,
    every workspace counterpart has a name and the cloning of groups does
    not raise. *)
Theorem catalog_is_built (st : cstate) :
  Forall (fun c => confirm E fs c.1 c.2 = None) (catalog_confirmations E) ->
  Forall (fun f => path_exists fs (src E f) = true) edited_files ->
  path_exists fs (joinpath (src E "build/bazel") "rules/python/BUILD") = true ->
  is_relative_to (tempdir E) (top_dir E) = false ->
  is_relative_to (tempdir E) (out_dir E) = false ->
  (forall p, ws_counterpart E p <> root) ->
  (forall l d st0, returns (get_cuj_group E fs l d st0)) ->
  exists gs st', get_cujgroups E fs st = OK (gs, st').
Proof.
  intros Hconf Hfiles Hpy Htop Hout Hnamed Hclone.
  unfold catalog_confirmations, top_confirmations in Hconf.
  apply Forall_app in Hconf as [Htopc Hsub].
  repeat (apply Forall_cons in Htopc as [? Htopc]).
  repeat (apply Forall_cons in Hsub as [? Hsub]).
  unfold edited_files in Hfiles.
  repeat (apply Forall_cons in Hfiles as [? Hfiles]).
  change (returns (get_cujgroups E fs st)).
  unfold get_cujgroups. cbv zeta.
  repeat first
    [ apply ret_returns
    | apply bind_returns;
      [ first
          [ by apply confirmed_returns
          | by apply modify_revert_returns
          | by apply (canned_returns ModifyPrivateMethod)
          | by apply (canned_returns AddPrivateField)
          | by apply (canned_returns AddPublicApi)
          | by apply (canned_returns ModifyResource)
          | by apply (canned_returns AddResource)
          | apply create_delete_returns
          | apply Hclone
          | by apply unkept_cujs_returns
          | by apply kept_cujs_returns
          | apply replace_link_with_dir_returns
          | apply map_build_returns;
            let Hin := fresh "Hin" in
            intros ? ? Hin; cbv beta;
            first
              [ apply create_delete_returns
              | unfold create_delete_bp; apply create_delete_returns
              | by apply delete_restore_returns
              | repeat (apply elem_of_cons in Hin as [->|Hin]);
                [ by apply modify_revert_returns ..
                | by apply elem_of_nil in Hin ] ] ]
      | intros ? ? _ ] ].
Qed.

End Returns.

(** ** What the content verifiers look for *)

Lemma lines_from_sound (x t cur : text) :
  x ∈ lines_from t cur ->
  exists t1 t2, cur ++ t = t1 ++ x ++ t2 /\ (t1 = [] \/ exists t0, t1 = t0 ++ [10%N]).
Proof.
  revert cur. induction t as [|c t IH]; intros cur; cbn [lines_from].
  - destruct cur as [|d cur]; [by intros ?%elem_of_nil|].
    intros ->%list_elem_of_singleton. exists [], []. split; [|by left].
    by rewrite !app_nil_r.
  - destruct (N.eqb_spec c 10) as [->|Hc].
    + intros [->|Hx]%elem_of_cons.
      * exists [], t. split; [|by left]. cbn. by rewrite <- app_assoc.
      * destruct (IH [] Hx) as (t1 & t2 & Heq & Hstart). cbn [app] in Heq.
        exists (cur ++ [10%N] ++ t1), t2. split.
        { rewrite Heq. by rewrite <- !app_assoc. }
        right. destruct Hstart as [->|[t0 ->]].
        -- exists cur. by rewrite app_nil_r.
        -- exists (cur ++ [10%N] ++ t0). by rewrite <- !app_assoc.
    + intros Hx. destruct (IH (cur ++ [c]) Hx) as (t1 & t2 & Heq & Hstart).
      exists t1, t2. split; [|done]. rewrite <- Heq. by rewrite <- app_assoc.
Qed.

Lemma lines_from_first (body t2 cur : text) :
  10%N ∉ body ->
  lines_from (body ++ 10%N :: t2) cur = (cur ++ body ++ [10%N]) :: lines_from t2 [].
Proof.
  revert cur. induction body as [|c body IH]; intros cur Hbody; cbn [app lines_from].
  - reflexivity.
  - apply not_elem_of_cons in Hbody as [Hc Hbody].
    rewrite (proj2 (N.eqb_neq c 10)) by done.
    rewrite IH by done. by rewrite <- app_assoc.
Qed.

Lemma lines_from_later (x t0 rest cur : text) :
  x ∈ lines_from rest [] -> x ∈ lines_from (t0 ++ 10%N :: rest) cur.
Proof.
  intros Hx. revert cur. induction t0 as [|c t0 IH]; intros cur; cbn [app lines_from].
  - right. exact Hx.
  - destruct (c =? 10)%N; [right|]; apply IH.
Qed.

Lemma whole_line_in_lines (body t : text) :
  10%N ∉ body ->
  body ++ [10%N] ∈ lines_from t [] <-> at_line_start (body ++ [10%N]) t.
Proof.
  intros Hbody. split.
  - intros Hx. destruct (lines_from_sound _ _ _ Hx) as (t1 & t2 & Heq & Hstart).
    by exists t1, t2.
  - intros (t1 & t2 & -> & [->|[t0 ->]]).
    + cbn [app]. rewrite <- app_assoc. cbn [app].
      rewrite lines_from_first by done. by left.
    + rewrite <- !app_assoc. cbn [app]. apply lines_from_later.
      rewrite lines_from_first by done. by left.
Qed.

Section ContentVerifiers.

Variable E : env.

(** X17. On a workspace build file that can be read, [contains] passes
    exactly when the content, a line with its line feed, stands in the text
    at the start of a line, and [does_not_contain] passes exactly when it
    does not; so one of the two passes and the other raises
    AssertionError: each raises it exactly when the other passes. *)
Theorem content_verifiers_look_for_a_whole_line (now : filesystem)
    (ws_build_file : path) (body t : text) :
  read_text ws_build_file now = OK t ->
  10%N ∉ body ->
  (contains E now ws_build_file (body ++ [10%N]) = OK tt
   <-> at_line_start (body ++ [10%N]) t)
  /\ (does_not_contain E now ws_build_file (body ++ [10%N]) = OK tt
      <-> ~ at_line_start (body ++ [10%N]) t)
  /\ ((exists msg, contains E now ws_build_file (body ++ [10%N])
                   = Err (AssertionError msg))
      <-> does_not_contain E now ws_build_file (body ++ [10%N]) = OK tt)
  /\ ((exists msg, does_not_contain E now ws_build_file (body ++ [10%N])
                   = Err (AssertionError msg))
      <-> contains E now ws_build_file (body ++ [10%N]) = OK tt).
Proof.
  intros Hread Hbody. unfold contains, does_not_contain, search. rewrite Hread.
  rewrite <- (whole_line_in_lines body t Hbody).
  destruct (existsb _ (lines_from t [])) eqn:Hfound.
  - apply existsb_exists in Hfound as (x & Hx & Heq).
    apply bool_decide_eq_true in Heq as ->. apply list_elem_of_In in Hx.
    split; [done|]. split; [split; [discriminate | done]|].
    split; [split; [intros [msg Hmsg]; discriminate | discriminate]|].
    split; [done | intros _; eauto].
  - assert (Hnot : body ++ [10%N] ∉ lines_from t []).
    { intros Hx. apply list_elem_of_In in Hx.
      assert (existsb (fun line => bool_decide (line = body ++ [10%N]))
                (lines_from t []) = true) as Htrue.
      { apply existsb_exists. exists (body ++ [10%N]). split; [done|].
        by apply bool_decide_eq_true. }
      congruence. }
    split; [split; [discriminate | done]|]. split; [done|].
    split; [split; [done | intros _; eauto]|].
    split; [intros [msg Hmsg]; discriminate | discriminate].
Qed.

End ContentVerifiers.

(** ** The statements at concrete inputs *)

Lemma demo_fs_wf : wf_fs demo_fs.
Proof. apply wf_fsb_sound. vm_compute. reflexivity. Qed.

Lemma demo_counterparts_named (p : path) : ws_counterpart demo_env p <> root.
Proof.
  cbn [ws_counterpart demo_env]. intros H. apply (f_equal length) in H.
  rewrite length_app in H. cbn in H. lia.
Qed.

Lemma delete_then_restore_witness :
  exists g st' delete restore w1,
    delete_restore demo_env ["a.txt"; "src"] SYMLINK demo_state = OK (g, st')
    /\ steps g = [delete; restore]
    /\ apply_change delete demo_world = Done w1
    /\ files w1 !! ["a.txt"; "src"] = None
    /\ files w1 !! ["a.txt-00000000-0000-0000-0000-000000000000.bak"; "tmp"]
       = Some (File hello)
    /\ apply_change delete w1 = Raised (FileNotFoundError ["a.txt"; "src"]) w1
    /\ apply_change restore w1 = Done demo_world.
Proof.
  destruct (delete_then_restore demo_env ["a.txt"; "src"] SYMLINK demo_state
              demo_world hello)
    as (g & st' & d & r & Hg & Hsteps & Hsame & _);
    [vm_compute; reflexivity | vm_compute; reflexivity | vm_compute; reflexivity
    | exact demo_fs_wf | vm_compute; reflexivity | vm_compute; reflexivity
    | vm_compute; reflexivity |].
  destruct (Hsame eq_refl) as (w1 & H1 & H2 & H3 & H4 & H5).
  exists g, st', d, r, w1. repeat (split; [assumption|]). assumption.
Defined.


Lemma second_revert_cuts_the_original_witness :
  exists g modify revert,
    modify_revert demo_env (files demo_world) ["a.txt"; "src"]
      (Some (text_of_string "//")) demo_state = OK (g, demo_state)
    /\ steps g = [modify; revert]
    /\ run_steps [modify; revert; revert] demo_world
       = Done (World (<[ ["a.txt"; "src"] := File (take 4 hello) ]> demo_fs) ∅).
Proof.
  destruct (second_revert_cuts_the_original demo_env demo_world ["a.txt"; "src"]
              hello (text_of_string "//") demo_state)
    as (g & m & r & Hg & Hsteps & Hcut & _);
    [vm_compute; reflexivity | compute_done |].
  exists g, m, r. split; [exact Hg|]. split; [exact Hsteps|].
  apply Hcut. vm_compute. lia.
Defined.

Lemma kept_build_file_marker_is_searched_witness :
  exists g st' modify revert ws_build_file b,
    modify_revert_kept_build_file demo_env demo_fs ["a.txt"; "src"] demo_state
      = OK (g, st')
    /\ steps g = [modify; revert]
    /\ verify modify
       = Sequence NoVerify
           (SkipFor SOONG_ONLY
              (Contains ws_build_file (bogus_marker (uuid4 (rand demo_state)).1)))
    /\ utf8_encode (bogus_marker (uuid4 (rand demo_state)).1) = Some b
    /\ apply_change modify demo_world
       = Done (World (<[ ["a.txt"; "src"] := File (hello ++ b) ]> demo_fs) ∅)
    /\ apply_change revert
         (World (<[ ["a.txt"; "src"] := File (hello ++ b) ]> demo_fs) ∅)
       = Done demo_world.
Proof.
  destruct (kept_build_file_marker_is_searched demo_env demo_fs ["a.txt"; "src"]
              demo_state demo_world hello)
    as (g & st' & m & r & wsf & b & Hg & Hsteps & _ & _ & _ & Hv & _ & Hb & Hm & Hr);
    [vm_compute; reflexivity | vm_compute; reflexivity
    | apply demo_counterparts_named |].
  exists g, st', m, r, wsf, b. by repeat split.
Defined.

Lemma unkept_build_file_marker_is_disproved_witness :
  exists g st' create delete ws_build_file,
    create_delete_unkept_build_file demo_env demo_fs ["BUILD"; "libm"; "src"]
      demo_state = OK (g, st')
    /\ steps g = [create; delete]
    /\ verify create
       = Sequence (WsVerifier SYMLINK ["BUILD"; "libm"; "src"])
           (SkipFor SOONG_ONLY
              (DoesNotContain ws_build_file
                 (bogus_marker (uuid4 (rand demo_state)).1))).
Proof.
  destruct (unkept_build_file_marker_is_disproved demo_env demo_fs
              ["BUILD"; "libm"; "src"] demo_state)
    as (g & st' & c & d & wsf & b & Hg & Hsteps & _ & _ & _ & Hv & _);
    [apply demo_counterparts_named|].
  exists g, st', c, d, wsf. by repeat split.
Defined.

Lemma regex_modify_then_revert_witness :
  exists g st' modify revert,
    regex_modify_revert demo_env demo_xml_fs config ">0<" ">7<" "modify_resource"
      demo_state = OK (g, st')
    /\ steps g = [modify; revert]
    /\ forall w c w1,
         files w !! config = Some (File c) ->
         apply_change modify w = Done w1 ->
         exists t b w2,
           utf8_decode c = Some t
           /\ utf8_encode (universal_newlines t) = Some b
           /\ apply_change revert w1 = Done w2
           /\ apply_change revert w2 = Done w2
           /\ files w2 = <[config := File b]> (files w)
           /\ (13%N ∉ t -> files w2 = files w).
Proof.
  apply (regex_modify_then_revert demo_env demo_xml_fs config).
  vm_compute. reflexivity.
Defined.

Lemma regex_groups_keep_their_own_text_witness :
  exists g1 st1 g2 st2,
    regex_modify_revert demo_env demo_xml_fs config ">0<" ">7<" "modify_resource"
      demo_state = OK (g1, st1)
    /\ regex_modify_revert demo_env demo_xml_fs config "</a>" "</b>" "add_resource"
         st1 = OK (g2, st2)
    /\ length (steps g1) = 2 /\ length (steps g2) = 2.
Proof.
  destruct (regex_groups_keep_their_own_text demo_env demo_xml_fs config config
              ">0<" ">7<" "modify_resource" "</a>" "</b>" "add_resource" demo_state)
    as (g1 & st1 & g2 & st2 & m1 & r1 & m2 & r2 & Hg1 & Hg2 & Hs1 & Hs2 & _);
    [vm_compute; reflexivity | vm_compute; reflexivity |].
  exists g1, st1, g2, st2. rewrite Hs1, Hs2. by repeat split.
Defined.

Lemma catalog_shape_witness :
  exists gs st',
    get_cujgroups demo_env demo_catalog_fs demo_state = OK (gs, st')
    /\ length gs = 41.
Proof.
  destruct (get_cujgroups demo_env demo_catalog_fs demo_state) as [[gs st']|e] eqn:H.
  - exists gs, st'. split; [reflexivity|].
    destruct (catalog_shape demo_env demo_catalog_fs demo_state gs st' H)
      as (_ & _ & _ & _ & _ & _ & _ & _ & Hlen).
    exact Hlen.
  - exfalso.
    assert (Hok : raised (get_cujgroups demo_env demo_catalog_fs demo_state) = None)
      by (vm_compute; reflexivity).
    rewrite H in Hok. discriminate.
Defined.




Lemma default_marker_round_trip_witness :
  exists g st' modify revert b,
    modify_revert demo_env (files demo_world) ["a.txt"; "src"] None demo_state
      = OK (g, st')
    /\ steps g = [modify; revert]
    /\ verb modify = "modify" /\ verb revert = "revert"
    /\ utf8_encode (bogus_marker (uuid4 (rand demo_state)).1) = Some b
    /\ apply_change modify demo_world
       = Done (World (<[ ["a.txt"; "src"] := File (hello ++ b) ]>
                        (files demo_world)) (cells demo_world))
    /\ apply_change revert
         (World (<[ ["a.txt"; "src"] := File (hello ++ b) ]> (files demo_world))
            (cells demo_world))
       = Done demo_world.
Proof.
  apply (default_marker_round_trip demo_env demo_world ["a.txt"; "src"] hello
           demo_state).
  vm_compute. reflexivity.
Defined.

Lemma modify_revert_recreates_vanished_file_witness :
  exists g modify revert b,
    modify_revert demo_env demo_fs ["a.txt"; "src"] (Some (text_of_string "//"))
      demo_state = OK (g, demo_state)
    /\ steps g = [modify; revert]
    /\ utf8_encode (text_of_string "//") = Some b
    /\ apply_change modify demo_gone_world
       = Done (World (<[ ["a.txt"; "src"] := File b ]> (files demo_gone_world))
                 (cells demo_gone_world))
    /\ run_steps (steps g) demo_gone_world
       = Done (World (<[ ["a.txt"; "src"] := File [] ]> (files demo_gone_world))
                 (cells demo_gone_world)).
Proof.
  apply (modify_revert_recreates_vanished_file demo_env demo_fs demo_gone_world
           "a.txt" ["src"] (text_of_string "//") demo_state);
    first [ vm_compute; reflexivity | compute_done ].
Defined.

Lemma catalog_is_built_witness :
  exists gs st', get_cujgroups demo_env demo_catalog_fs demo_state = OK (gs, st').
Proof.
  apply (catalog_is_built demo_env demo_catalog_fs demo_state).
  - repeat constructor.
  - compute_done.
  - vm_compute. reflexivity.
  - vm_compute. reflexivity.
  - vm_compute. reflexivity.
  - exact demo_counterparts_named.
  - intros l d st0. by eexists _, _.
Defined.

Lemma content_verifiers_look_for_a_whole_line_witness :
  contains demo_env demo_fs ["a.txt"; "src"] (text_of_string "hello" ++ [10%N])
  = OK tt
  <-> at_line_start (text_of_string "hello" ++ [10%N])
        (text_of_string "hello" ++ [10%N]).
Proof.
  apply (content_verifiers_look_for_a_whole_line demo_env demo_fs ["a.txt"; "src"]
           (text_of_string "hello") (text_of_string "hello" ++ [10%N])).
  - vm_compute. reflexivity.
  - compute_done.
Defined.

Lemma clean_removes_only_the_output_tree_witness :
  exists w',
    clean demo_env demo_out_world = Done w'
    /\ cells w' = cells demo_out_world
    /\ forall q, files w' !! q
                 = if bool_decide (out_dir demo_env `suffix_of` q) then None
                   else files demo_out_world !! q.
Proof.
  apply (proj2 (proj2 (clean_removes_only_the_output_tree demo_env demo_out_world)));
    vm_compute; reflexivity.
Defined.


Lemma replace_link_with_dir_returns_to_start_witness :
  exists g st',
    replace_link_with_dir demo_env demo_fs ["new.txt"; "dir"; "src"] demo_state
      = OK (g, st')
    /\ length (steps g) = 3
    /\ forall cs w3,
         run_steps (steps g) (World demo_fs cs) = Done w3 -> w3 = World demo_fs cs.
Proof.
  destruct (replace_link_with_dir_returns_to_start demo_env demo_fs
              ["new.txt"; "dir"; "src"] demo_state)
    as (g & st' & c & r & d & Hg & _ & Hsteps & _ & _ & _ & _ & _ & _ & Hback).
  exists g, st'. split; [exact Hg|]. split; [by rewrite Hsteps|].
  exact (Hback demo_fs_wf).
Defined.
